(** * Performance-timeline metrics of the browser tracing package

    A shallow embedding of [packages/tracing/src/browser/metrics.ts]:
    [MetricsInstrumentation] (its entry cursor, measurement set and browser
    context), [addPerformanceEntries] with its per-entry dispatch, the span
    helpers [addNavigationSpans], [addMeasureSpans], [addResourceSpans],
    [addPerformanceNavigationTiming], [addRequest], [_startChild], and the two
    web-vital callbacks of [_trackLCP] and [_trackFID].

    JavaScript numbers are modelled as exact rationals together with [NaN]
    (what [undefined / 1000] and any arithmetic on it evaluate to); rounding
    of IEEE doubles is not modelled. Results of arithmetic are kept in
    reduced form ([Qred]) so that equal numbers are equal terms. *)

From Stdlib Require Import QArith Qreduction String ZArith Lia.
From stdpp Require Import base list gmap strings.

Local Open Scope string_scope.

(** ** JavaScript numbers *)

Inductive num : Type :=
| Num (q : Q)
| NaN.

Definition num_add (a b : num) : num :=
  match a, b with
  | Num x, Num y => Num (Qred (x + y))
  | _, _ => NaN
  end.

(** [a < b]: false as soon as one side is [NaN]. *)
Definition num_lt (a b : num) : bool :=
  match a, b with
  | Num x, Num y => negb (Qle_bool y x)
  | _, _ => false
  end.

(** Truthiness of a number: [0] and [NaN] are falsy. *)
Definition num_truthy (a : num) : bool :=
  match a with
  | Num x => negb (Qeq_bool x 0)
  | NaN => false
  end.

(** A JavaScript value of type [number | undefined], read from an entry. *)
Definition of_opt (o : option Q) : num :=
  match o with
  | Some q => Num q
  | None => NaN
  end.

Definition opt_truthy (o : option Q) : bool := num_truthy (of_opt o).

(** [utils.msToSec]: [time / 1000]. *)
Definition msToSec (time : num) : num :=
  match time with
  | Num x => Num (Qred (x / 1000))
  | NaN => NaN
  end.

(** ** Strings *)

(** [s.indexOf(p) > -1]. *)
Definition includes (s p : string) : bool :=
  match String.index 0 p s with
  | Some _ => true
  | None => false
  end.

(** [s.replace(pat, '')] with a string pattern: removes the first
    occurrence of [pat], if any. *)
Definition replace_first_empty (s pat : string) : string :=
  match String.index 0 pat s with
  | Some k =>
      String.substring 0 k s
      ++ String.substring (k + String.length pat)
           (String.length s - k - String.length pat) s
  | None => s
  end.

(** ** Timeline entries (the loosely typed [Record<string, any>]) *)

Record entry : Type := mkEntry {
  entryType : string;
  name : string;
  startTime : Q;
  duration : Q;
  (** navigation sub-fields such as [loadEventStart], [requestStart] *)
  props : list (string * Q);
  initiatorType : option string;
  transferSize : option Q;
  encodedBodySize : option Q;
  decodedBodySize : option Q
}.

(** [entry[key]]: [undefined] when the key is absent. *)
Definition prop (e : entry) (key : string) : option Q :=
  match List.find (fun kv => String.eqb (fst kv) key) (props e) with
  | Some kv => Some (snd kv)
  | None => None
  end.

(** ** Spans and transactions *)

Record span : Type := mkSpan {
  description : string;
  span_op : string;
  span_start : num;
  span_end : num;
  span_data : list (string * Q)
}.

Record browserContext : Type := mkBrowserContext {
  effectiveConnectionType : option string;
  deviceMemory : option Q;
  hardwareConcurrency : option Q
}.

Definition emptyBrowserContext : browserContext :=
  mkBrowserContext None None None.

(** The span context handed to [_startChild]. *)
Record spanContext : Type := mkSpanContext {
  ctx_description : string;
  ctx_endTimestamp : num;
  ctx_op : string;
  ctx_startTimestamp : num;
  ctx_data : list (string * Q)
}.

(** Modelled from the spec: the [Transaction] class (not in this source
    file). Only what this core reads or writes: its operation kind, its
    mutable start boundary, the children it owns, the [browser] context and
    the measurement set attached through [setContexts] and
    [setMeasurements]. *)
Record transaction : Type := mkTransaction {
  tx_op : string;
  startTimestamp : num;
  spans : list span;
  tx_browser : option browserContext;
  tx_measurements : option (gmap string num)
}.

(** Modelled from the spec: [transaction.startChild(spanContext)] adds a
    child span carrying the given fields. *)
Definition startChild (tx : transaction) (c : spanContext) : transaction :=
  {| tx_op := tx_op tx;
     startTimestamp := startTimestamp tx;
     spans := spans tx ++ [mkSpan (ctx_description c) (ctx_op c)
                            (ctx_startTimestamp c) (ctx_endTimestamp c)
                            (ctx_data c)];
     tx_browser := tx_browser tx;
     tx_measurements := tx_measurements tx |}.

Definition set_startTimestamp (tx : transaction) (s : num) : transaction :=
  {| tx_op := tx_op tx; startTimestamp := s; spans := spans tx;
     tx_browser := tx_browser tx; tx_measurements := tx_measurements tx |}.

Definition setContexts (tx : transaction) (b : browserContext) : transaction :=
  {| tx_op := tx_op tx; startTimestamp := startTimestamp tx; spans := spans tx;
     tx_browser := Some b; tx_measurements := tx_measurements tx |}.

Definition setMeasurements (tx : transaction) (m : gmap string num)
  : transaction :=
  {| tx_op := tx_op tx; startTimestamp := startTimestamp tx; spans := spans tx;
     tx_browser := tx_browser tx; tx_measurements := Some m |}.

(** [_startChild]: pulls the transaction's start back when the (truthy)
    child start is earlier, then creates the child. *)
Definition _startChild (tx : transaction) (c : spanContext) : transaction :=
  let s := ctx_startTimestamp c in
  let tx' := if num_truthy s && num_lt s (startTimestamp tx)
             then set_startTimestamp tx s else tx in
  startChild tx' c.

(** ** Span helpers *)

Definition mkCtx (d : string) (e : num) (o : string) (s : num) : spanContext :=
  mkSpanContext d e o s [].

(** [addPerformanceNavigationTiming]: one [browser] span for [event], only
    when both [<event>Start] and [<event>End] are truthy. *)
Definition addPerformanceNavigationTiming (tx : transaction) (e : entry)
    (event : string) (timeOrigin : num) : transaction :=
  let end_ := prop e (event ++ "End") in
  let start := prop e (event ++ "Start") in
  if negb (opt_truthy start) || negb (opt_truthy end_) then tx
  else _startChild tx
         (mkCtx event (num_add timeOrigin (msToSec (of_opt end_))) "browser"
                (num_add timeOrigin (msToSec (of_opt start)))).

(** [addRequest]: the [request] and [response] spans, unguarded. *)
Definition addRequest (tx : transaction) (e : entry) (timeOrigin : num)
  : transaction :=
  let tx1 := _startChild tx
      (mkCtx "request" (num_add timeOrigin (msToSec (of_opt (prop e "responseEnd"))))
             "browser" (num_add timeOrigin (msToSec (of_opt (prop e "requestStart"))))) in
  _startChild tx1
      (mkCtx "response" (num_add timeOrigin (msToSec (of_opt (prop e "responseEnd"))))
             "browser" (num_add timeOrigin (msToSec (of_opt (prop e "responseStart"))))).

Definition addNavigationSpans (tx : transaction) (e : entry) (timeOrigin : num)
  : transaction :=
  let tx := addPerformanceNavigationTiming tx e "unloadEvent" timeOrigin in
  let tx := addPerformanceNavigationTiming tx e "domContentLoadedEvent" timeOrigin in
  let tx := addPerformanceNavigationTiming tx e "loadEvent" timeOrigin in
  let tx := addPerformanceNavigationTiming tx e "connect" timeOrigin in
  let tx := addPerformanceNavigationTiming tx e "domainLookup" timeOrigin in
  addRequest tx e timeOrigin.

(** [addMeasureSpans]: returns the transaction and [measureStartTimestamp]. *)
Definition addMeasureSpans (tx : transaction) (e : entry)
    (startTime duration timeOrigin : num) : transaction * num :=
  let measureStartTimestamp := num_add timeOrigin startTime in
  let measureEndTimestamp := num_add measureStartTimestamp duration in
  (_startChild tx (mkCtx (name e) measureEndTimestamp (entryType e)
                         measureStartTimestamp),
   measureStartTimestamp).

(** A string is truthy when it is not empty. *)
Definition str_truthy (s : option string) : bool :=
  match s with
  | Some x => negb (String.eqb x "")
  | None => false
  end.

Definition is_initiator (e : entry) (k : string) : bool :=
  match initiatorType e with
  | Some x => String.eqb x k
  | None => false
  end.

(** [data] of a resource span: the size fields present on the entry. *)
Definition resource_data (e : entry) : list (string * Q) :=
  (match transferSize e with Some v => [("Transfer Size", v)] | None => [] end)
  ++ (match encodedBodySize e with Some v => [("Encoded Body Size", v)] | None => [] end)
  ++ (match decodedBodySize e with Some v => [("Decoded Body Size", v)] | None => [] end).

(** [addResourceSpans]: returns the transaction and the end timestamp, or
    [undefined] for requests already instrumented through fetch and xhr. *)
Definition addResourceSpans (tx : transaction) (e : entry) (resourceName : string)
    (startTime duration timeOrigin : num) : transaction * option num :=
  if is_initiator e "xmlhttprequest" || is_initiator e "fetch" then (tx, None)
  else
    let startTimestamp := num_add timeOrigin startTime in
    let endTimestamp := num_add startTimestamp duration in
    let op := if str_truthy (initiatorType e)
              then "resource." ++ default "" (initiatorType e)
              else "resource" in
    (_startChild tx (mkSpanContext resourceName endTimestamp op startTimestamp
                                   (resource_data e)),
     Some endTimestamp).

(** ** The platform *)

Record script : Type := mkScript {
  dataset_entry : option string;
  src : string
}.

Record connectionInfo : Type := mkConnection {
  effectiveType : option string;
  rtt : option Q;
  downlink : option Q
}.

Record navigatorInfo : Type := mkNavigator {
  connection : option connectionInfo;
  nav_deviceMemory : option Q;
  nav_hardwareConcurrency : option Q
}.

(** What [addPerformanceEntries] reads from the global object. *)
Record env : Type := mkEnv {
  has_global : bool;
  has_performance : bool;
  has_getEntries : bool;
  browserPerformanceTimeOrigin : option Q;
  document : option (list script);
  location_origin : string;
  navigator : option navigatorInfo;
  (** [performance.getEntries()] *)
  timeline : list entry
}.

(** ** [MetricsInstrumentation] *)

Record metrics : Type := mkMetrics {
  _measurements : gmap string num;
  _browserContext : browserContext;
  _performanceCursor : nat
}.

Definition set_meas (st : metrics) (m : gmap string num) : metrics :=
  mkMetrics m (_browserContext st) (_performanceCursor st).

(** Optional chaining [o?.f] on a field that may itself be absent. *)
Definition opt_get {A B} (f : A -> option B) (o : option A) : option B :=
  match o with Some a => f a | None => None end.

(** [_trackNavigator]. *)
Definition _trackNavigator (nav : option navigatorInfo) (st : metrics) : metrics :=
  let '(bc, m) :=
    match opt_get connection nav with
    | Some c =>
        let bc := if str_truthy (effectiveType c)
                  then mkBrowserContext (effectiveType c)
                         (deviceMemory (_browserContext st))
                         (hardwareConcurrency (_browserContext st))
                  else _browserContext st in
        let m := match rtt c with
                 | Some v => <["connection.rtt" := Num v]> (_measurements st)
                 | None => _measurements st end in
        let m := match downlink c with
                 | Some v => <["connection.downlink" := Num v]> m
                 | None => m end in
        (bc, m)
    | None => (_browserContext st, _measurements st)
    end in
  let bc := match opt_get nav_deviceMemory nav with
            | Some v => mkBrowserContext (effectiveConnectionType bc) (Some v)
                          (hardwareConcurrency bc)
            | None => bc end in
  let bc := match opt_get nav_hardwareConcurrency nav with
            | Some v => mkBrowserContext (effectiveConnectionType bc)
                          (deviceMemory bc) (Some v)
            | None => bc end in
  mkMetrics m bc (_performanceCursor st).

(** The constructor: fields initialised, then (with a performance object)
    the mark, the vital subscriptions and a first navigator snapshot. *)
Definition construct (e : env) : metrics :=
  let st := mkMetrics ∅ emptyBrowserContext 0 in
  if has_global e && has_performance e then _trackNavigator (navigator e) st
  else st.

(** ** [addPerformanceEntries] *)

(** The locals threaded through the [forEach] callback: the transaction, the
    instance's measurement set, [tracingInitMarkStartTime] and
    [entryScriptStartTimestamp]. *)
Record scan : Type := mkScan {
  sc_tx : transaction;
  sc_meas : gmap string num;
  tracingInitMarkStartTime : option num;
  entryScriptStartTimestamp : option num
}.

(** The [forEach] callback for one entry. *)
Definition process_entry (timeOrigin : num) (entryScriptSrc : option string)
    (origin : string) (sc : scan) (e : entry) : scan :=
  let tx := sc_tx sc in
  let entry_startTime := startTime e in
  let startTime := msToSec (Num (startTime e)) in
  let duration := msToSec (Num (duration e)) in
  if String.eqb (tx_op tx) "navigation"
     && num_lt (num_add timeOrigin startTime) (startTimestamp tx)
  then sc
  else
    let ty := entryType e in
    if String.eqb ty "navigation" then
      mkScan (addNavigationSpans tx e timeOrigin) (sc_meas sc)
             (tracingInitMarkStartTime sc) (entryScriptStartTimestamp sc)
    else if String.eqb ty "mark" || String.eqb ty "paint" || String.eqb ty "measure" then
      let '(tx', st) := addMeasureSpans tx e startTime duration timeOrigin in
      let ti := match tracingInitMarkStartTime sc with
                | None => if String.eqb (name e) "sentry-tracing-init"
                          then Some st else None
                | Some t => Some t
                end in
      let m := sc_meas sc in
      let m := if String.eqb (name e) "first-paint"
               then <["mark.fp" := st]> (<["fp" := Num entry_startTime]> m) else m in
      let m := if String.eqb (name e) "first-contentful-paint"
               then <["mark.fcp" := st]> (<["fcp" := Num entry_startTime]> m) else m in
      mkScan tx' m ti (entryScriptStartTimestamp sc)
    else if String.eqb ty "resource" then
      let resourceName := replace_first_empty (name e) origin in
      let '(tx', endTimestamp) :=
        addResourceSpans tx e resourceName startTime duration timeOrigin in
      let es := match entryScriptStartTimestamp sc with
                | None => if includes (default "" entryScriptSrc) resourceName
                          then endTimestamp else None
                | Some t => Some t
                end in
      mkScan tx' (sc_meas sc) (tracingInitMarkStartTime sc) es
    else sc.

(** [entryScriptSrc]: the [src] of the first script whose [data-entry] is
    ['true']; [src || ''] is applied at the use site. *)
Fixpoint find_entry_script (scripts : list script) : option string :=
  match scripts with
  | [] => None
  | s :: rest =>
      match dataset_entry s with
      | Some "true" => Some (src s)
      | _ => find_entry_script rest
      end
  end.

Definition gatekeeper (e : env) : bool :=
  has_global e && has_performance e && has_getEntries e
  && opt_truthy (browserPerformanceTimeOrigin e).

(** The scan of the unseen suffix [getEntries().slice(cursor)]. *)
Definition scan_entries (timeOrigin : num) (entryScriptSrc : option string)
    (origin : string) (sc : scan) (es : list entry) : scan :=
  fold_left (process_entry timeOrigin entryScriptSrc origin) es sc.

Definition addPerformanceEntries (e : env) (st : metrics) (tx : transaction)
  : metrics * transaction :=
  if negb (gatekeeper e) then (st, tx)
  else
    let timeOrigin := msToSec (of_opt (browserPerformanceTimeOrigin e)) in
    let entryScriptSrc :=
      match document e with
      | Some scripts => find_entry_script scripts
      | None => None
      end in
    let sc := scan_entries timeOrigin entryScriptSrc (location_origin e)
                (mkScan tx (_measurements st) None None)
                (drop (_performanceCursor st) (timeline e)) in
    let tx1 :=
      match entryScriptStartTimestamp sc, tracingInitMarkStartTime sc with
      | Some es, Some ti => _startChild (sc_tx sc) (mkCtx "evaluation" ti "script" es)
      | _, _ => sc_tx sc
      end in
    let st1 := mkMetrics (sc_meas sc) (_browserContext st)
                 (Nat.max (length (timeline e) - 1) 0) in
    if String.eqb (tx_op tx1) "pageload" then
      let st2 := _trackNavigator (navigator e) st1 in
      (st2, setMeasurements (setContexts tx1 (_browserContext st2))
                            (_measurements st2))
    else (st1, tx1).

(** ** Web vitals *)

Record metric : Type := mkMetric {
  value : Q;
  entries : list entry
}.

(** [metric.entries.pop()]: the last entry, and the list without it. *)
Definition pop (l : list entry) : option entry * list entry :=
  match rev l with
  | [] => (None, [])
  | x :: r => (Some x, rev r)
  end.

(** The callback of [_trackLCP] ([key = "lcp"]) and of [_trackFID]
    ([key = "fid"]); [perfTimeOrigin] is [performance.timeOrigin] in ms.
    Returns the instance and the metric object (whose list was popped). *)
Definition vital_callback (key : string) (perfTimeOrigin : Q) (st : metrics)
    (m : metric) : metrics * metric :=
  let '(oe, rest) := pop (entries m) in
  let m' := mkMetric (value m) rest in
  match oe with
  | None => (st, m')
  | Some e =>
      let timeOrigin := msToSec (Num perfTimeOrigin) in
      let startTime := msToSec (Num (startTime e)) in
      (set_meas st (<["mark." ++ key := num_add timeOrigin startTime]>
                      (<[key := Num (value m)]> (_measurements st))), m')
  end.

Definition _trackLCP_callback := vital_callback "lcp".
Definition _trackFID_callback := vital_callback "fid".

(** Everything that can happen to an instance after construction. *)
Inductive event : Type :=
| Scan (e : env) (tx : transaction)
| LCP (perfTimeOrigin : Q) (m : metric)
| FID (perfTimeOrigin : Q) (m : metric).

Definition step (st : metrics) (ev : event) : metrics :=
  match ev with
  | Scan e tx => fst (addPerformanceEntries e st tx)
  | LCP o m => fst (_trackLCP_callback o st m)
  | FID o m => fst (_trackFID_callback o st m)
  end.

(** The cursor after each event. *)
Fixpoint cursors (st : metrics) (evs : list event) : list nat :=
  match evs with
  | [] => []
  | ev :: rest => let st' := step st ev in _performanceCursor st' :: cursors st' rest
  end.

(** The timelines seen by the scans of [evs] only grow. *)
Fixpoint append_only (seen : list entry) (evs : list event) : Prop :=
  match evs with
  | [] => True
  | Scan e _ :: rest => prefix seen (timeline e) /\ append_only (timeline e) rest
  | _ :: rest => append_only seen rest
  end.

(** ** Notions used to state the properties *)

Definition ctx_span (c : spanContext) : span :=
  mkSpan (ctx_description c) (ctx_op c) (ctx_startTimestamp c)
         (ctx_endTimestamp c) (ctx_data c).

(** The [browser] span for [event], as a list: empty when skipped. *)
Definition timing_span (e : entry) (event : string) (o : num) : list span :=
  let end_ := prop e (event ++ "End") in
  let start := prop e (event ++ "Start") in
  if opt_truthy start && opt_truthy end_
  then [mkSpan event "browser" (num_add o (msToSec (of_opt start)))
               (num_add o (msToSec (of_opt end_))) []]
  else [].

(** The transaction's start is a number no later than every child's. *)
Definition contains (tx : transaction) : Prop :=
  exists q, startTimestamp tx = Num q
  /\ Forall (fun sp => exists r, span_start sp = Num r /\ (q <= r)%Q) (spans tx).

Definition pos (n : num) : Prop := exists q, n = Num q /\ (0 < q)%Q.
Definition nonneg (n : num) : Prop := exists q, n = Num q /\ (0 <= q)%Q.

(** Timeline entries as the platform reports them: non-negative times,
    durations and sub-fields; navigation entries carry [requestStart] and
    [responseStart]. *)
Definition wf_entry (e : entry) : Prop :=
  (0 <= startTime e)%Q /\ (0 <= duration e)%Q
  /\ Forall (fun kv => (0 <= snd kv)%Q) (props e)
  /\ (entryType e = "navigation" ->
      prop e "requestStart" <> None /\ prop e "responseStart" <> None).

(** What the scan keeps: containment, and positive captured timestamps. *)
Definition scan_inv (sc : scan) : Prop :=
  contains (sc_tx sc)
  /\ (forall t, tracingInitMarkStartTime sc = Some t -> pos t)
  /\ (forall t, entryScriptStartTimestamp sc = Some t -> pos t).

Definition with_timeline (e : env) (tl : list entry) : env :=
  mkEnv (has_global e) (has_performance e) (has_getEntries e)
        (browserPerformanceTimeOrigin e) (document e) (location_origin e)
        (navigator e) tl.

(** [l] never goes below [c] and never decreases. *)
Fixpoint non_decreasing_from (c : nat) (l : list nat) : Prop :=
  match l with
  | [] => True
  | x :: r => c <= x /\ non_decreasing_from x r
  end.

Definition set_cursor (st : metrics) (c : nat) : metrics :=
  mkMetrics (_measurements st) (_browserContext st) c.

(** [tx'] has the operation kind, contexts and measurements of [tx]. *)
Definition frame (tx tx' : transaction) : Prop :=
  tx_op tx' = tx_op tx /\ tx_browser tx' = tx_browser tx
  /\ tx_measurements tx' = tx_measurements tx.

(** The entry passes the filter of the [forEach] callback. *)
Definition is_dispatched (o : num) (sc : scan) (e : entry) : bool :=
  negb (String.eqb (tx_op (sc_tx sc)) "navigation"
        && num_lt (num_add o (msToSec (Num (startTime e)))) (startTimestamp (sc_tx sc))).

Definition is_measure_like (e : entry) : bool :=
  String.eqb (entryType e) "mark" || String.eqb (entryType e) "paint"
  || String.eqb (entryType e) "measure".

Definition is_instrumented_request (e : entry) : bool :=
  is_initiator e "xmlhttprequest" || is_initiator e "fetch".

(** The scan [addPerformanceEntries] runs when the gatekeeper passes. *)
Definition entries_scan (e : env) (st : metrics) (tx : transaction) : scan :=
  scan_entries (msToSec (of_opt (browserPerformanceTimeOrigin e)))
    (match document e with Some scripts => find_entry_script scripts | None => None end)
    (location_origin e) (mkScan tx (_measurements st) None None)
    (drop (_performanceCursor st) (timeline e)).

Definition app_js_env : env :=
  mkEnv true true true (Some 1000000%Q)
    (Some [mkScript (Some "true") "https://x/app.js"]) "https://x" None
    [mkEntry "resource" "https://x/app.js" 5 5 [] (Some "fetch") None None None;
     mkEntry "resource" "https://x/app.js" 20 10 [] (Some "script") None None None;
     mkEntry "mark" "sentry-tracing-init" 100 0 [] None None None None].

(** [tx'] keeps every span of [tx] in place, and its start is the same as
    that of [tx] or earlier. *)
Definition extends (tx tx' : transaction) : Prop :=
  (exists l, spans tx' = (spans tx ++ l)%list)
  /\ (startTimestamp tx' = startTimestamp tx
      \/ num_lt (startTimestamp tx') (startTimestamp tx) = true).

(** * Properties *)

(** ** Helper lemmas *)

Lemma pop_app_last (l : list entry) (e : entry) : pop (l ++ [e])%list = (Some e, l).
Proof. unfold pop. rewrite rev_app_distr. simpl. rewrite rev_involutive. reflexivity. Qed.

Lemma msToSec_add (a b : Q) :
  num_add (msToSec (Num a)) (msToSec (Num b)) = msToSec (Num (a + b)).
Proof.
  simpl. f_equal. apply Qred_complete.
  rewrite Qred_correct, !Qred_correct. unfold Qdiv. ring.
Qed.

(** ** C5 *)

(** C5: without the performance-timeline capability (no global object, no
    performance object, no [getEntries], or no time origin),
    [addPerformanceEntries] returns at once: instance (measurements, context,
    cursor) and transaction (spans, start, contexts, measurements) are
    returned unchanged. *)
Theorem addPerformanceEntries_gatekeeper (e : env) (st : metrics) (tx : transaction) :
  has_global e = false \/ has_performance e = false \/ has_getEntries e = false
  \/ opt_truthy (browserPerformanceTimeOrigin e) = false ->
  addPerformanceEntries e st tx = (st, tx).
Proof.
  intros H. unfold addPerformanceEntries, gatekeeper.
  destruct H as [H | [H | [H | H]]]; rewrite H;
    repeat rewrite andb_false_r; reflexivity.
Qed.

Lemma addPerformanceEntries_gatekeeper_witness :
  let e := mkEnv true false true (Some 1000%Q) None "" None [] in
  let st := mkMetrics ∅ emptyBrowserContext 3 in
  let tx := mkTransaction "pageload" (Num 1) [] None None in
  (has_global e = false \/ has_performance e = false \/ has_getEntries e = false
   \/ opt_truthy (browserPerformanceTimeOrigin e) = false)
  /\ addPerformanceEntries e st tx = (st, tx).
Proof.
  intros e st tx. split.
  - right. left. reflexivity.
  - apply addPerformanceEntries_gatekeeper. right. left. reflexivity.
Defined.

(** ** C6 *)

(** C6: a firing of the LCP or FID callback with an empty [entries] list
    leaves the instance unchanged; with a non-empty list only its last entry
    is used, and exactly two measurements are written: the metric value
    under [lcp]/[fid] and [(timeOrigin + startTime) / 1000] under
    [mark.lcp]/[mark.fid]. *)
Theorem vital_callbacks_spec (o : Q) (st : metrics) (m : metric) :
  (entries m = [] ->
     fst (_trackLCP_callback o st m) = st /\ fst (_trackFID_callback o st m) = st)
  /\ (forall (l : list entry) (e : entry), entries m = (l ++ [e])%list ->
       fst (_trackLCP_callback o st m)
       = set_meas st (<["mark.lcp" := msToSec (Num (o + startTime e))]>
                       (<["lcp" := Num (value m)]> (_measurements st)))
       /\ fst (_trackFID_callback o st m)
          = set_meas st (<["mark.fid" := msToSec (Num (o + startTime e))]>
                          (<["fid" := Num (value m)]> (_measurements st)))).
Proof.
  split.
  - intros H. unfold _trackLCP_callback, _trackFID_callback, vital_callback.
    rewrite H. split; reflexivity.
  - intros l e H. unfold _trackLCP_callback, _trackFID_callback, vital_callback.
    rewrite H, pop_app_last. cbv beta iota zeta. rewrite msToSec_add. split; reflexivity.
Qed.

Lemma vital_callbacks_spec_witness :
  let e := mkEntry "largest-contentful-paint" "" 250 0 [] None None None None in
  let m := mkMetric 250 [e] in
  let st := mkMetrics ∅ emptyBrowserContext 0 in
  fst (_trackLCP_callback 1000 st m)
  = set_meas st (<["mark.lcp" := msToSec (Num (1000 + startTime e))]>
                  (<["lcp" := Num (value m)]> (_measurements st))).
Proof.
  intros e m st.
  exact (proj1 (proj2 (vital_callbacks_spec 1000 st m) [] e eq_refl)).
Defined.

(** ** C7 *)

(** C7: a resource entry initiated by [xmlhttprequest] or [fetch] makes
    [addResourceSpans] return the transaction untouched and no end
    timestamp; the dispatch of such an entry adds no span. *)
Theorem addResourceSpans_dedup (tx : transaction) (e : entry) (rn : string)
    (s d o : num) (src_ : option string) (origin : string) (sc : scan) :
  initiatorType e = Some "xmlhttprequest" \/ initiatorType e = Some "fetch" ->
  addResourceSpans tx e rn s d o = (tx, None)
  /\ (entryType e = "resource" ->
      spans (sc_tx (process_entry o src_ origin sc e)) = spans (sc_tx sc)).
Proof.
  intros Hi.
  assert (Hr : forall tx rn s d o, addResourceSpans tx e rn s d o = (tx, None)).
  { intros. unfold addResourceSpans, is_initiator.
    destruct Hi as [Hi | Hi]; rewrite Hi; reflexivity. }
  split; [apply Hr |].
  intros Ht. unfold process_entry. rewrite Ht.
  destruct (_ && _); [reflexivity |]. simpl. rewrite Hr. reflexivity.
Qed.

Lemma addResourceSpans_dedup_witness :
  let e := mkEntry "resource" "https://x/api" 5 10 [] (Some "fetch") None None None in
  let tx := mkTransaction "pageload" (Num 1) [] None None in
  let sc := mkScan tx ∅ None None in
  addResourceSpans tx e "/api" (Num 0.005) (Num 0.01) (Num 1000) = (tx, None)
  /\ spans (sc_tx (process_entry (Num 1000) None "https://x" sc e)) = spans tx.
Proof.
  intros e tx sc.
  destruct (addResourceSpans_dedup tx e "/api" (Num 0.005) (Num 0.01) (Num 1000)
              None "https://x" sc (or_intror eq_refl)) as [H1 H2].
  split; [exact H1 | exact (H2 eq_refl)].
Defined.

(** ** C8 *)

(** C8: with [timeOrigin = 1000] s and a navigation entry with
    [domContentLoadedEventStart = 100] ms and [domContentLoadedEventEnd = 150]
    ms, the span emitted has description [domContentLoadedEvent], operation
    [browser], start [1000.1] s and end [1000.15] s. *)
Theorem navigation_timing_example (tx : transaction) (e : entry) :
  prop e "domContentLoadedEventStart" = Some 100%Q ->
  prop e "domContentLoadedEventEnd" = Some 150%Q ->
  spans (addPerformanceNavigationTiming tx e "domContentLoadedEvent" (Num 1000))
  = (spans tx ++ [mkSpan "domContentLoadedEvent" "browser"
                    (Num 1000.1) (Num (Qred 1000.15)) []])%list.
Proof.
  intros Hs He. unfold addPerformanceNavigationTiming.
  change ("domContentLoadedEvent" ++ "End") with "domContentLoadedEventEnd".
  change ("domContentLoadedEvent" ++ "Start") with "domContentLoadedEventStart".
  rewrite Hs, He. unfold _startChild.
  destruct (_ && _); reflexivity.
Qed.

Lemma navigation_timing_example_witness :
  let e := mkEntry "navigation" "https://x/" 0 500
             [("domContentLoadedEventStart", 100%Q); ("domContentLoadedEventEnd", 150%Q)]
             None None None None in
  let tx := mkTransaction "pageload" (Num 1000.05) [] None None in
  spans (addPerformanceNavigationTiming tx e "domContentLoadedEvent" (Num 1000))
  = (spans tx ++ [mkSpan "domContentLoadedEvent" "browser"
                    (Num 1000.1) (Num (Qred 1000.15)) []])%list.
Proof.
  intros e tx. apply navigation_timing_example; reflexivity.
Defined.

(** ** Spans created by the helpers *)

Lemma startChild_spans (tx : transaction) (c : spanContext) :
  spans (_startChild tx c) = (spans tx ++ [ctx_span c])%list.
Proof. unfold _startChild. destruct (_ && _); reflexivity. Qed.

Lemma startChild_op (tx : transaction) (c : spanContext) :
  tx_op (_startChild tx c) = tx_op tx.
Proof. unfold _startChild. destruct (_ && _); reflexivity. Qed.

Lemma addPerformanceNavigationTiming_spans (tx : transaction) (e : entry)
    (event : string) (o : num) :
  spans (addPerformanceNavigationTiming tx e event o)
  = (spans tx ++ timing_span e event o)%list.
Proof.
  unfold addPerformanceNavigationTiming, timing_span.
  destruct (opt_truthy (prop e (event ++ "Start"))),
           (opt_truthy (prop e (event ++ "End"))); cbn [negb orb andb];
    try (rewrite startChild_spans; reflexivity); rewrite app_nil_r; reflexivity.
Qed.

(** ** C4 *)

(** C4 (as amended): for a navigation entry, each of the [unloadEvent],
    [domContentLoadedEvent], [loadEvent], [connect] and [domainLookup] spans
    is emitted exactly when both its [Start] and [End] sub-fields are
    truthy, and skipped silently otherwise; the [request] and [response]
    spans follow unconditionally, whatever [requestStart], [responseStart]
    and [responseEnd] hold. *)
Theorem addNavigationSpans_spans (tx : transaction) (e : entry) (o : num) :
  spans (addNavigationSpans tx e o)
  = (spans tx
     ++ timing_span e "unloadEvent" o
     ++ timing_span e "domContentLoadedEvent" o
     ++ timing_span e "loadEvent" o
     ++ timing_span e "connect" o
     ++ timing_span e "domainLookup" o
     ++ [mkSpan "request" "browser"
           (num_add o (msToSec (of_opt (prop e "requestStart"))))
           (num_add o (msToSec (of_opt (prop e "responseEnd")))) [];
         mkSpan "response" "browser"
           (num_add o (msToSec (of_opt (prop e "responseStart"))))
           (num_add o (msToSec (of_opt (prop e "responseEnd")))) []])%list.
Proof.
  unfold addNavigationSpans, addRequest.
  rewrite !startChild_spans, !addPerformanceNavigationTiming_spans.
  rewrite <- !app_assoc. reflexivity.
Qed.

(** C4 fails as stated: a navigation entry with none of its sub-fields
    still yields the [request] and [response] spans (with [NaN] bounds). *)
Lemma addNavigationSpans_missing_fields_counterexample :
  let e := mkEntry "navigation" "https://x/" 0 0 [] None None None None in
  let tx := mkTransaction "pageload" (Num 1000) [] None None in
  prop e "requestStart" = None /\ prop e "responseStart" = None
  /\ prop e "responseEnd" = None
  /\ spans (addNavigationSpans tx e (Num 1000))
     = [mkSpan "request" "browser" NaN NaN []; mkSpan "response" "browser" NaN NaN []].
Proof. vm_compute. repeat split. Qed.

(** ** Boundary containment *)

Lemma pos_add (a b : num) : pos a -> nonneg b -> pos (num_add a b).
Proof.
  intros [x [-> Hx]] [y [-> Hy]]. exists (Qred (x + y)). split; [reflexivity |].
  rewrite Qred_correct. apply Qlt_le_trans with (x + 0)%Q.
  - rewrite Qplus_0_r. exact Hx.
  - apply Qplus_le_r. exact Hy.
Qed.

Lemma pos_nonneg (a : num) : pos a -> nonneg a.
Proof. intros [x [-> Hx]]. exists x. split; [reflexivity | apply Qlt_le_weak; exact Hx]. Qed.

Lemma msToSec_nonneg (q : Q) : (0 <= q)%Q -> nonneg (msToSec (Num q)).
Proof.
  intros H. exists (Qred (q / 1000)). split; [reflexivity |].
  rewrite Qred_correct. apply Qle_shift_div_l; [reflexivity |].
  rewrite Qmult_0_l. exact H.
Qed.

Lemma msToSec_pos (q : Q) : (0 < q)%Q -> pos (msToSec (Num q)).
Proof.
  intros H. exists (Qred (q / 1000)). split; [reflexivity |].
  rewrite Qred_correct. apply Qlt_shift_div_l; [reflexivity |].
  rewrite Qmult_0_l. exact H.
Qed.

Lemma contains_startChild (tx : transaction) (c : spanContext) :
  contains tx -> pos (ctx_startTimestamp c) -> contains (_startChild tx c).
Proof.
  intros [q [Hq Hall]] [r [Hr Hpos]].
  unfold _startChild. rewrite Hr, Hq. unfold num_truthy, num_lt.
  assert (Hnz : Qeq_bool r 0 = false).
  { apply not_true_iff_false. intros Heq. apply Qeq_bool_iff in Heq.
    rewrite Heq in Hpos. discriminate. }
  rewrite Hnz. simpl negb. rewrite andb_true_l.
  destruct (Qle_bool q r) eqn:Hle; simpl negb; cbv iota.
  - exists q. split; [exact Hq |]. simpl. apply Forall_app. split; [exact Hall |].
    constructor; [| constructor]. exists r. split; [exact Hr | apply Qle_bool_iff; exact Hle].
  - exists r. split; [reflexivity |]. simpl. apply Forall_app. split.
    + apply (Forall_impl _ _ _ Hall). intros sp [r' [Hr' Hle']]. exists r'.
      split; [exact Hr' |]. apply Qle_trans with q; [| exact Hle'].
      apply Qlt_le_weak, Qnot_le_lt. intros Hc. apply Qle_bool_iff in Hc. congruence.
    + constructor; [| constructor]. exists r. split; [exact Hr | apply Qle_refl].
Qed.

Lemma contains_setContexts (tx : transaction) (b : browserContext) :
  contains tx -> contains (setContexts tx b).
Proof. intros H. exact H. Qed.

Lemma contains_setMeasurements (tx : transaction) (m : gmap string num) :
  contains tx -> contains (setMeasurements tx m).
Proof. intros H. exact H. Qed.

Lemma prop_nonneg (e : entry) (k : string) (q : Q) :
  Forall (fun kv => (0 <= snd kv)%Q) (props e) -> prop e k = Some q -> (0 <= q)%Q.
Proof.
  unfold prop. intros Hall Hp.
  destruct (List.find _ (props e)) as [kv |] eqn:Hf; [| discriminate].
  injection Hp as <-. apply List.find_some in Hf as [Hin _].
  rewrite List.Forall_forall in Hall. exact (Hall kv Hin).
Qed.

Lemma pos_offset (o : num) (e : entry) (k : string) (q : Q) :
  pos o -> Forall (fun kv => (0 <= snd kv)%Q) (props e) -> prop e k = Some q ->
  pos (num_add o (msToSec (of_opt (prop e k)))).
Proof.
  intros Ho Hall Hp. apply pos_add; [exact Ho |]. rewrite Hp.
  apply msToSec_nonneg. exact (prop_nonneg e k q Hall Hp).
Qed.

Lemma contains_timing (tx : transaction) (e : entry) (ev : string) (o : num) :
  pos o -> Forall (fun kv => (0 <= snd kv)%Q) (props e) -> contains tx ->
  contains (addPerformanceNavigationTiming tx e ev o).
Proof.
  intros Ho Hall Htx. unfold addPerformanceNavigationTiming.
  destruct (prop e (ev ++ "Start")) as [q |] eqn:Hs; [| exact Htx].
  destruct (negb _ || negb _); [exact Htx |].
  apply contains_startChild; [exact Htx |]. cbn [ctx_startTimestamp mkCtx].
  rewrite <- Hs. exact (pos_offset o e _ q Ho Hall Hs).
Qed.

Lemma contains_addNavigationSpans (tx : transaction) (e : entry) (o : num) :
  pos o -> wf_entry e -> entryType e = "navigation" -> contains tx ->
  contains (addNavigationSpans tx e o).
Proof.
  intros Ho [_ [_ [Hall Hnav]]] Ht Htx. destruct (Hnav Ht) as [Hrq Hrs].
  unfold addNavigationSpans, addRequest.
  destruct (prop e "requestStart") as [q1 |] eqn:H1; [| congruence].
  destruct (prop e "responseStart") as [q2 |] eqn:H2; [| congruence].
  apply contains_startChild; [apply contains_startChild |];
    cbn [ctx_startTimestamp mkCtx].
  - repeat apply contains_timing; auto.
  - rewrite <- H1. exact (pos_offset o e _ q1 Ho Hall H1).
  - rewrite <- H2. exact (pos_offset o e _ q2 Ho Hall H2).
Qed.

Lemma scan_inv_process_entry (o : num) (src_ : option string) (origin : string)
    (sc : scan) (e : entry) :
  pos o -> wf_entry e -> scan_inv sc -> scan_inv (process_entry o src_ origin sc e).
Proof.
  intros Ho Hwf Hsc. pose proof Hwf as [Hst [Hdu _]].
  destruct Hsc as [Htx [Hti Hes]].
  assert (Hs : pos (num_add o (msToSec (Num (startTime e)))))
    by (apply pos_add; [exact Ho | apply msToSec_nonneg; exact Hst]).
  assert (Hd : nonneg (msToSec (Num (duration e)))) by (apply msToSec_nonneg; exact Hdu).
  unfold process_entry.
  destruct (_ && _); [split; auto |].
  destruct (String.eqb (entryType e) "navigation") eqn:Hn.
  { apply String.eqb_eq in Hn. split; [| split; assumption].
    apply contains_addNavigationSpans; assumption. }
  destruct (_ || _ || _).
  { unfold addMeasureSpans. cbv beta iota zeta. split; [| split];
      cbn [sc_tx tracingInitMarkStartTime entryScriptStartTimestamp].
    - apply contains_startChild; [exact Htx | exact Hs].
    - intros t Ht. destruct (tracingInitMarkStartTime sc) eqn:E.
      + apply Hti. exact Ht.
      + destruct (String.eqb (name e) "sentry-tracing-init");
          [injection Ht as <-; exact Hs | discriminate].
    - exact Hes. }
  destruct (String.eqb (entryType e) "resource"); [| split; auto].
  unfold addResourceSpans.
  destruct (_ || _); cbv beta iota zeta.
  { split; [exact Htx | split; [exact Hti |]].
    cbn [entryScriptStartTimestamp]. intros t Ht.
    destruct (entryScriptStartTimestamp sc); [apply Hes; exact Ht |].
    destruct (includes _ _); discriminate. }
  split; [| split]; cbn [sc_tx tracingInitMarkStartTime entryScriptStartTimestamp].
  - apply contains_startChild; [exact Htx | exact Hs].
  - exact Hti.
  - intros t Ht. destruct (entryScriptStartTimestamp sc); [apply Hes; exact Ht |].
    destruct (includes _ _); [| discriminate]. injection Ht as <-.
    apply pos_add; [exact Hs | exact Hd].
Qed.

Lemma scan_inv_scan_entries (o : num) (src_ : option string) (origin : string)
    (sc : scan) (es : list entry) :
  pos o -> Forall wf_entry es -> scan_inv sc ->
  scan_inv (scan_entries o src_ origin sc es).
Proof.
  intros Ho Hes. revert sc. unfold scan_entries.
  induction Hes as [| e es He Hes IH]; intros sc Hsc; simpl; [exact Hsc |].
  apply IH. apply scan_inv_process_entry; assumption.
Qed.

Lemma contains_addPerformanceEntries (e : env) (st : metrics) (tx : transaction) :
  (forall q, browserPerformanceTimeOrigin e = Some q -> (0 < q)%Q) ->
  Forall wf_entry (timeline e) -> contains tx ->
  contains (snd (addPerformanceEntries e st tx)).
Proof.
  intros Ho Hwf Htx. unfold addPerformanceEntries.
  destruct (gatekeeper e) eqn:Hg; [| exact Htx]. cbn [negb].
  assert (Hpo : pos (msToSec (of_opt (browserPerformanceTimeOrigin e)))).
  { unfold gatekeeper, opt_truthy in Hg.
    destruct (browserPerformanceTimeOrigin e) as [q |] eqn:Hq.
    - apply msToSec_pos. apply Ho. reflexivity.
    - rewrite andb_false_r in Hg. discriminate. }
  match goal with
  | |- context [scan_entries ?o ?s ?or ?sc0 ?es] =>
      assert (Hsc : scan_inv (scan_entries o s or sc0 es))
        by (apply scan_inv_scan_entries;
            [exact Hpo | apply Forall_drop; exact Hwf
            | split; [exact Htx | split; discriminate]]);
      destruct (scan_entries o s or sc0 es) as [tx1 m1 ti1 es1]
  end.
  destruct Hsc as [Hc [Hti Hes]]; cbn [sc_tx tracingInitMarkStartTime
    entryScriptStartTimestamp sc_meas] in *.
  assert (Hc1 : contains (match es1, ti1 with
                          | Some es, Some ti => _startChild tx1 (mkCtx "evaluation" ti "script" es)
                          | _, _ => tx1 end)).
  { destruct es1 as [t |], ti1; try exact Hc.
    apply contains_startChild; [exact Hc | apply Hes; reflexivity]. }
  destruct (String.eqb _ "pageload"); cbn [snd];
    [apply contains_setMeasurements, contains_setContexts |]; exact Hc1.
Qed.

(** ** C2 *)

(** C2 (as amended): when [_startChild] is given a truthy (non-zero,
    non-NaN) start earlier than the transaction's, the transaction's start
    becomes that start; and for a positive time origin and entries with
    non-negative times, durations and navigation sub-fields (navigation
    entries carrying [requestStart] and [responseStart]), every call of
    [addPerformanceEntries] keeps the transaction's start a number no later
    than the start of every child span. *)
Theorem boundary_containment :
  (forall (tx : transaction) (c : spanContext),
     num_truthy (ctx_startTimestamp c) = true ->
     num_lt (ctx_startTimestamp c) (startTimestamp tx) = true ->
     startTimestamp (_startChild tx c) = ctx_startTimestamp c)
  /\ (forall (e : env) (st : metrics) (tx : transaction),
       (forall q, browserPerformanceTimeOrigin e = Some q -> (0 < q)%Q) ->
       Forall wf_entry (timeline e) -> contains tx ->
       contains (snd (addPerformanceEntries e st tx))).
Proof.
  split.
  - intros tx c Ht Hl. unfold _startChild. rewrite Ht, Hl. reflexivity.
  - exact contains_addPerformanceEntries.
Qed.

Lemma boundary_containment_witness :
  let tx := mkTransaction "pageload" (Num 1000.5) [] None None in
  let c := mkCtx "evaluation" (Num 1000.3) "script" (Num 1000.2) in
  let e := mkEnv true true true (Some 1000000%Q) None "https://x" None
             [mkEntry "mark" "sentry-tracing-init" 10 0 [] None None None None] in
  startTimestamp (_startChild tx c) = Num 1000.2
  /\ contains (snd (addPerformanceEntries e (construct e) tx)).
Proof.
  intros tx c e. split.
  - apply (proj1 boundary_containment tx c); reflexivity.
  - apply (proj2 boundary_containment e (construct e) tx).
    + intros q Hq. injection Hq as <-. reflexivity.
    + constructor; [| constructor].
      split; [discriminate | split; [discriminate | split; [constructor |]]].
      intros H. discriminate.
    + exists 1000.5%Q. split; [reflexivity | constructor].
Defined.

(** C2 fails as stated: a zero start, although earlier than the
    transaction's, does not move the transaction's start, and the child
    then starts before the transaction. *)
Lemma startChild_zero_start_counterexample :
  let tx := mkTransaction "pageload" (Num 5) [] None None in
  let tx' := _startChild tx (mkCtx "span" (Num 1) "mark" (Num 0)) in
  num_lt (Num 0) (startTimestamp tx) = true
  /\ startTimestamp tx' = Num 5
  /\ map span_start (spans tx') = [Num 0].
Proof. vm_compute. repeat split. Qed.

(** ** The entry cursor *)

Lemma trackNavigator_cursor (nav : option navigatorInfo) (st : metrics) :
  _performanceCursor (_trackNavigator nav st) = _performanceCursor st.
Proof.
  unfold _trackNavigator.
  destruct (opt_get connection nav); reflexivity.
Qed.

Lemma addPerformanceEntries_cursor (e : env) (st : metrics) (tx : transaction) :
  _performanceCursor (fst (addPerformanceEntries e st tx))
  = if gatekeeper e then Nat.max (length (timeline e) - 1) 0
    else _performanceCursor st.
Proof.
  unfold addPerformanceEntries. destruct (gatekeeper e); [| reflexivity].
  cbn [negb]. destruct (String.eqb _ "pageload"); cbn [fst];
    [rewrite trackNavigator_cursor |]; reflexivity.
Qed.

Lemma step_cursor_bound (st : metrics) (ev : event) (seen : list entry) :
  _performanceCursor st <= Nat.max (length seen - 1) 0 ->
  (match ev with Scan e _ => prefix seen (timeline e) | _ => True end) ->
  _performanceCursor st <= _performanceCursor (step st ev)
  /\ _performanceCursor (step st ev)
     <= Nat.max (length (match ev with Scan e _ => timeline e | _ => seen end) - 1) 0.
Proof.
  intros Hc Hp. destruct ev as [e tx | o m | o m].
  - cbn [step]. rewrite addPerformanceEntries_cursor.
    assert (Hlen : length seen <= length (timeline e)) by (apply prefix_length; exact Hp).
    destruct (gatekeeper e); lia.
  - unfold step, _trackLCP_callback, vital_callback.
    destruct (pop (entries m)) as [[x |] r]; cbn [fst set_meas _performanceCursor]; lia.
  - unfold step, _trackFID_callback, vital_callback.
    destruct (pop (entries m)) as [[x |] r]; cbn [fst set_meas _performanceCursor]; lia.
Qed.

Lemma cursors_monotone (st : metrics) (seen : list entry) (evs : list event) :
  _performanceCursor st <= Nat.max (length seen - 1) 0 ->
  append_only seen evs ->
  non_decreasing_from (_performanceCursor st) (cursors st evs).
Proof.
  revert st seen. induction evs as [| ev evs IH]; intros st seen Hc Ha; [exact I |].
  cbn [cursors non_decreasing_from].
  assert (Hp : match ev with Scan e _ => prefix seen (timeline e) | _ => True end)
    by (destruct ev; [exact (proj1 Ha) | exact I | exact I]).
  destruct (step_cursor_bound st ev seen Hc Hp) as [H1 H2].
  split; [exact H1 |].
  apply (IH _ (match ev with Scan e _ => timeline e | _ => seen end) H2).
  destruct ev; [exact (proj2 Ha) | exact Ha | exact Ha].
Qed.

(** ** C3 *)

(** C3: the cursor is [0] after construction; after a call that passes the
    gatekeeper it is [max(length - 1, 0)]; over any sequence of calls (and
    vital firings) on an append-only timeline it never decreases; and a call
    does not depend on the entries below its cursor (changing them leaves
    its whole result unchanged), so an entry below an earlier post-call
    cursor is never dispatched again. *)
Theorem performance_cursor_spec :
  (forall e0 : env, _performanceCursor (construct e0) = 0)
  /\ (forall (e : env) (st : metrics) (tx : transaction),
        gatekeeper e = true ->
        _performanceCursor (fst (addPerformanceEntries e st tx))
        = Nat.max (length (timeline e) - 1) 0)
  /\ (forall (e0 : env) (evs : list event),
        append_only [] evs -> non_decreasing_from 0 (cursors (construct e0) evs))
  /\ (forall (e : env) (st : metrics) (tx : transaction) (tl' : list entry),
        length tl' = length (timeline e) ->
        drop (_performanceCursor st) tl' = drop (_performanceCursor st) (timeline e) ->
        addPerformanceEntries (with_timeline e tl') st tx = addPerformanceEntries e st tx).
Proof.
  assert (Hinit : forall e0 : env, _performanceCursor (construct e0) = 0).
  { intros e0. unfold construct. destruct (_ && _);
      [rewrite trackNavigator_cursor |]; reflexivity. }
  split; [exact Hinit |]. split; [| split].
  - intros e st tx Hg. rewrite addPerformanceEntries_cursor, Hg. reflexivity.
  - intros e0 evs Ha. rewrite <- (Hinit e0).
    apply (cursors_monotone _ []); [rewrite Hinit; lia | exact Ha].
  - intros e st tx tl' Hl Hd. destruct e.
    unfold with_timeline, addPerformanceEntries, gatekeeper.
    cbn [timeline has_global has_performance has_getEntries
         browserPerformanceTimeOrigin document location_origin navigator] in *.
    rewrite Hd, Hl. reflexivity.
Qed.

Lemma performance_cursor_spec_witness :
  let a := mkEntry "mark" "a" 10 0 [] None None None None in
  let b := mkEntry "mark" "b" 20 0 [] None None None None in
  let e1 := mkEnv true true true (Some 1000000%Q) None "https://x" None [a] in
  let e2 := with_timeline e1 [a; b] in
  let tx := mkTransaction "pageload" (Num 1000) [] None None in
  let st := mkMetrics ∅ emptyBrowserContext 1 in
  _performanceCursor (fst (addPerformanceEntries e2 st tx)) = 1
  /\ non_decreasing_from 0 (cursors (construct e1) [Scan e1 tx; Scan e2 tx])
  /\ addPerformanceEntries (with_timeline e2 [b; b]) st tx
     = addPerformanceEntries e2 st tx.
Proof.
  intros a b e1 e2 tx st.
  destruct performance_cursor_spec as [_ [H2 [H3 H4]]].
  split; [| split].
  - apply (H2 e2 st tx). reflexivity.
  - apply (H3 e1). split; [exists [a]; reflexivity |].
    split; [exists [b]; reflexivity | exact I].
  - apply (H4 e2 st tx [b; b]); reflexivity.
Defined.

(** ** Repeated calls *)

Lemma gatekeeper_with_timeline (e : env) (tl : list entry) :
  gatekeeper (with_timeline e tl) = gatekeeper e.
Proof. reflexivity. Qed.

(** The transaction produced by a call depends on the instance's cursor only
    through the suffix of the timeline it selects. *)
Lemma addPerformanceEntries_suffix (e : env) (st : metrics) (tx : transaction)
    (tl : list entry) (c : nat) :
  drop c tl = drop (_performanceCursor st) (timeline e) ->
  snd (addPerformanceEntries (with_timeline e tl) (set_cursor st c) tx)
  = snd (addPerformanceEntries e st tx).
Proof.
  intros Hd. unfold addPerformanceEntries.
  rewrite gatekeeper_with_timeline. destruct (gatekeeper e); [| reflexivity].
  cbn [negb with_timeline timeline document location_origin navigator
       browserPerformanceTimeOrigin set_cursor _performanceCursor _measurements].
  rewrite Hd. destruct e as [g p ge o d lo nav tl0]. cbn [timeline navigator].
  destruct (String.eqb _ "pageload"); cbn [snd]; [| reflexivity].
  unfold _trackNavigator. destruct (opt_get connection nav); reflexivity.
Qed.

(** ** C1 *)

(** C1 (as amended): after a call that passes the gatekeeper, a second call
    with no timeline growth dispatches again only the last timeline entry
    (the cursor was left at [length - 1]): its effect on the transaction is
    that of a call on a timeline made of that last entry alone (empty when
    the timeline is). *)
Theorem second_call_redispatches_last_entry (e : env) (st : metrics) (tx : transaction) :
  gatekeeper e = true ->
  let '(st1, tx1) := addPerformanceEntries e st tx in
  snd (addPerformanceEntries e st1 tx1)
  = snd (addPerformanceEntries
           (with_timeline e (drop (length (timeline e) - 1) (timeline e)))
           (set_cursor st1 0) tx1).
Proof.
  intros Hg. pose proof (addPerformanceEntries_cursor e st tx) as Hc.
  destruct (addPerformanceEntries e st tx) as [st1 tx1]. cbn [fst] in Hc.
  rewrite Hg, Nat.max_0_r in Hc.
  symmetry. apply addPerformanceEntries_suffix.
  rewrite drop_0, Hc. reflexivity.
Qed.

Lemma second_call_redispatches_last_entry_witness :
  let a := mkEntry "mark" "a" 10 0 [] None None None None in
  let b := mkEntry "mark" "b" 20 0 [] None None None None in
  let e := mkEnv true true true (Some 1000000%Q) None "https://x" None [a; b] in
  let tx := mkTransaction "pageload" (Num 1000) [] None None in
  let '(st1, tx1) := addPerformanceEntries e (construct e) tx in
  snd (addPerformanceEntries e st1 tx1)
  = snd (addPerformanceEntries (with_timeline e [b]) (set_cursor st1 0) tx1).
Proof.
  intros a b e tx.
  exact (second_call_redispatches_last_entry e (construct e) tx eq_refl).
Defined.

(** C1 fails as stated: on a timeline holding one mark, the second call,
    with no new entry, adds a second span for that mark. *)
Lemma second_call_adds_span_counterexample :
  let a := mkEntry "mark" "a" 10 0 [] None None None None in
  let e := mkEnv true true true (Some 1000000%Q) None "https://x" None [a] in
  let tx := mkTransaction "pageload" (Num 1000) [] None None in
  let '(st1, tx1) := addPerformanceEntries e (construct e) tx in
  let '(_, tx2) := addPerformanceEntries e st1 tx1 in
  length (spans tx1) = 1 /\ length (spans tx2) = 2.
Proof. vm_compute. split; reflexivity. Qed.

(** ** What the scan leaves alone on the transaction *)

Lemma frame_refl (tx : transaction) : frame tx tx.
Proof. repeat split. Qed.

Lemma frame_trans (a b c : transaction) : frame a b -> frame b c -> frame a c.
Proof. intros [H1 [H2 H3]] [H4 [H5 H6]]. repeat split; congruence. Qed.

Lemma frame_startChild (tx : transaction) (c : spanContext) : frame tx (_startChild tx c).
Proof. unfold _startChild. destruct (_ && _); repeat split. Qed.

Lemma frame_timing (tx : transaction) (e : entry) (ev : string) (o : num) :
  frame tx (addPerformanceNavigationTiming tx e ev o).
Proof.
  unfold addPerformanceNavigationTiming.
  destruct (_ || _); [apply frame_refl | apply frame_startChild].
Qed.

Lemma frame_addNavigationSpans (tx : transaction) (e : entry) (o : num) :
  frame tx (addNavigationSpans tx e o).
Proof.
  unfold addNavigationSpans, addRequest.
  repeat (eapply frame_trans; [| apply frame_startChild]).
  repeat (eapply frame_trans; [| apply frame_timing]). apply frame_refl.
Qed.

Lemma frame_process_entry (o : num) (src_ : option string) (origin : string)
    (sc : scan) (e : entry) :
  frame (sc_tx sc) (sc_tx (process_entry o src_ origin sc e)).
Proof.
  unfold process_entry.
  destruct (_ && _); [apply frame_refl |].
  destruct (String.eqb (entryType e) "navigation"); [apply frame_addNavigationSpans |].
  destruct (_ || _ || _).
  { unfold addMeasureSpans. cbv beta iota zeta. apply frame_startChild. }
  destruct (String.eqb (entryType e) "resource"); [| apply frame_refl].
  unfold addResourceSpans. destruct (_ || _); cbv beta iota zeta;
    [apply frame_refl | apply frame_startChild].
Qed.

Lemma frame_scan_entries (o : num) (src_ : option string) (origin : string)
    (sc : scan) (es : list entry) :
  frame (sc_tx sc) (sc_tx (scan_entries o src_ origin sc es)).
Proof.
  unfold scan_entries. revert sc.
  induction es as [| e es IH]; intros sc; cbn [fold_left]; [apply frame_refl |].
  eapply frame_trans; [apply frame_process_entry | apply IH].
Qed.

(** ** C9 *)

(** C9 (as amended): when the gatekeeper passes, [addPerformanceEntries]
    attaches the instance's measurement set and browser context (after a
    fresh navigator snapshot) to a ['pageload'] transaction; for any other
    operation kind, and whenever the gatekeeper fails, the transaction's
    measurements and contexts are left unchanged. *)
Theorem measurements_attached_iff_pageload (e : env) (st : metrics) (tx : transaction) :
  let '(st', tx') := addPerformanceEntries e st tx in
  (gatekeeper e = true -> tx_op tx = "pageload" ->
     tx_measurements tx' = Some (_measurements st')
     /\ tx_browser tx' = Some (_browserContext st'))
  /\ (gatekeeper e = false \/ tx_op tx <> "pageload" ->
     tx_measurements tx' = tx_measurements tx /\ tx_browser tx' = tx_browser tx).
Proof.
  unfold addPerformanceEntries.
  destruct (gatekeeper e) eqn:Hg; cbn [negb].
  2:{ split; [discriminate | split; reflexivity]. }
  match goal with
  | |- context [scan_entries ?o ?s ?or ?sc0 ?es] =>
      pose proof (frame_scan_entries o s or sc0 es) as Hf;
      destruct (scan_entries o s or sc0 es) as [tx1 m1 ti1 es1]
  end.
  cbn [sc_tx sc_meas tracingInitMarkStartTime entryScriptStartTimestamp] in *.
  assert (Hf1 : frame tx (match es1, ti1 with
                          | Some es, Some ti => _startChild tx1 (mkCtx "evaluation" ti "script" es)
                          | _, _ => tx1 end)).
  { destruct es1, ti1; try exact Hf.
    eapply frame_trans; [exact Hf | apply frame_startChild]. }
  destruct Hf1 as [Hop [Hb Hm]].
  rewrite Hop. destruct (String.eqb (tx_op tx) "pageload") eqn:Hp.
  - apply String.eqb_eq in Hp. split.
    + intros _ _. split; reflexivity.
    + intros [H | H]; [discriminate | contradiction].
  - apply String.eqb_neq in Hp. split.
    + intros _ H. contradiction.
    + intros _. split; assumption.
Qed.

Lemma measurements_attached_iff_pageload_witness :
  let e := mkEnv true true true (Some 1000000%Q) None "https://x" None
             [mkEntry "paint" "first-paint" 234 0 [] None None None None] in
  let tx := mkTransaction "pageload" (Num 1000) [] None None in
  let '(st', tx') := addPerformanceEntries e (construct e) tx in
  tx_measurements tx' = Some (_measurements st')
  /\ tx_browser tx' = Some (_browserContext st').
Proof.
  intros e tx.
  pose proof (measurements_attached_iff_pageload e (construct e) tx) as H.
  destruct (addPerformanceEntries e (construct e) tx) as [st' tx'].
  exact (proj1 H eq_refl eq_refl).
Defined.

(** C9 fails as stated: without the performance API, a ['pageload']
    transaction gets no measurement set and no context. *)
Lemma pageload_without_performance_counterexample :
  let e := mkEnv true false true (Some 1000000%Q) None "https://x" None [] in
  let tx := mkTransaction "pageload" (Num 1000) [] None None in
  tx_op tx = "pageload"
  /\ tx_measurements (snd (addPerformanceEntries e (construct e) tx)) = None
  /\ tx_browser (snd (addPerformanceEntries e (construct e) tx)) = None.
Proof. vm_compute. repeat split. Qed.

(** ** The tracing-init mark and the entry script *)

Lemma process_entry_keeps_captured (o : num) (src_ : option string) (origin : string)
    (sc : scan) (e : entry) :
  (forall t, tracingInitMarkStartTime sc = Some t ->
     tracingInitMarkStartTime (process_entry o src_ origin sc e) = Some t)
  /\ (forall t, entryScriptStartTimestamp sc = Some t ->
     entryScriptStartTimestamp (process_entry o src_ origin sc e) = Some t).
Proof.
  split; intros t Ht; unfold process_entry;
    destruct (_ && _); try exact Ht;
    destruct (String.eqb (entryType e) "navigation"); try exact Ht;
    destruct (_ || _ || _);
    try (unfold addMeasureSpans; cbv beta iota zeta;
         cbn [tracingInitMarkStartTime entryScriptStartTimestamp]; rewrite Ht;
         reflexivity);
    destruct (String.eqb (entryType e) "resource"); try exact Ht;
    destruct (addResourceSpans _ _ _ _ _ _);
    cbn [tracingInitMarkStartTime entryScriptStartTimestamp]; rewrite Ht; reflexivity.
Qed.

Lemma scan_entries_keeps_captured (o : num) (src_ : option string) (origin : string)
    (sc : scan) (es : list entry) :
  (forall t, tracingInitMarkStartTime sc = Some t ->
     tracingInitMarkStartTime (scan_entries o src_ origin sc es) = Some t)
  /\ (forall t, entryScriptStartTimestamp sc = Some t ->
     entryScriptStartTimestamp (scan_entries o src_ origin sc es) = Some t).
Proof.
  unfold scan_entries. revert sc.
  induction es as [| e es IH]; intros sc; cbn [fold_left]; [split; auto |].
  destruct (process_entry_keeps_captured o src_ origin sc e) as [H1 H2].
  destruct (IH (process_entry o src_ origin sc e)) as [H3 H4].
  split; intros t Ht; [apply H3, H1 | apply H4, H2]; exact Ht.
Qed.

Lemma process_entry_sets_tracingInit (o : num) (src_ : option string) (origin : string)
    (sc : scan) (e : entry) :
  tracingInitMarkStartTime sc = None ->
  tracingInitMarkStartTime (process_entry o src_ origin sc e)
  = if is_dispatched o sc e && is_measure_like e
       && String.eqb (name e) "sentry-tracing-init"
    then Some (num_add o (msToSec (Num (startTime e)))) else None.
Proof.
  intros H. unfold process_entry, is_dispatched, is_measure_like.
  destruct (_ && _); cbn [negb andb]; [exact H |].
  destruct (String.eqb (entryType e) "navigation") eqn:Hn.
  { apply String.eqb_eq in Hn. rewrite Hn. exact H. }
  destruct (_ || _ || _).
  - unfold addMeasureSpans. cbv beta iota zeta.
    cbn [tracingInitMarkStartTime andb]. rewrite H. reflexivity.
  - cbn [andb]. destruct (String.eqb (entryType e) "resource"); [| exact H].
    destruct (addResourceSpans _ _ _ _ _ _). exact H.
Qed.

Lemma process_entry_sets_entryScript (o : num) (src_ : option string) (origin : string)
    (sc : scan) (e : entry) :
  entryScriptStartTimestamp sc = None ->
  entryScriptStartTimestamp (process_entry o src_ origin sc e)
  = if is_dispatched o sc e && String.eqb (entryType e) "resource"
       && negb (is_instrumented_request e)
       && includes (default "" src_) (replace_first_empty (name e) origin)
    then Some (num_add (num_add o (msToSec (Num (startTime e))))
                       (msToSec (Num (duration e))))
    else None.
Proof.
  intros H. unfold process_entry, is_dispatched, is_instrumented_request.
  destruct (_ && _); cbn [negb andb]; [exact H |].
  destruct (String.eqb (entryType e) "navigation") eqn:Hn.
  { apply String.eqb_eq in Hn. rewrite Hn. exact H. }
  destruct (_ || _ || _) eqn:Hm.
  - unfold addMeasureSpans. cbv beta iota zeta.
    cbn [entryScriptStartTimestamp]. rewrite H.
    destruct (String.eqb (entryType e) "resource") eqn:Hr; [| reflexivity].
    apply String.eqb_eq in Hr. rewrite Hr in Hm. discriminate.
  - destruct (String.eqb (entryType e) "resource"); cbn [andb]; [| exact H].
    unfold addResourceSpans.
    destruct (is_initiator e "xmlhttprequest" || is_initiator e "fetch");
      cbn [negb andb]; cbv beta iota zeta; cbn [entryScriptStartTimestamp]; rewrite H;
      [destruct (includes _ _); reflexivity | reflexivity].
Qed.

Lemma addPerformanceEntries_evaluation (e : env) (st : metrics) (tx : transaction) :
  gatekeeper e = true ->
  spans (snd (addPerformanceEntries e st tx))
  = (spans (sc_tx (entries_scan e st tx))
     ++ match entryScriptStartTimestamp (entries_scan e st tx),
              tracingInitMarkStartTime (entries_scan e st tx) with
        | Some es, Some ti => [mkSpan "evaluation" "script" es ti []]
        | _, _ => []
        end)%list.
Proof.
  intros Hg. unfold addPerformanceEntries, entries_scan. rewrite Hg. cbn [negb].
  match goal with
  | |- context [scan_entries ?o ?s ?or ?sc0 ?es] =>
      destruct (scan_entries o s or sc0 es) as [tx1 m1 ti1 es1]
  end.
  cbn [sc_tx sc_meas tracingInitMarkStartTime entryScriptStartTimestamp].
  assert (Hs : spans (match es1, ti1 with
                      | Some es, Some ti => _startChild tx1 (mkCtx "evaluation" ti "script" es)
                      | _, _ => tx1 end)
               = (spans tx1 ++ match es1, ti1 with
                               | Some es, Some ti => [mkSpan "evaluation" "script" es ti []]
                               | _, _ => [] end)%list).
  { destruct es1, ti1; try (rewrite app_nil_r; reflexivity).
    apply startChild_spans. }
  destruct (String.eqb _ "pageload"); exact Hs.
Qed.

(** ** C10 *)

(** C10 (as amended): within one scan, the tracing-init timestamp is set by
    the first dispatched mark/paint/measure entry named
    [sentry-tracing-init], and the entry-script end timestamp by the first
    dispatched resource entry whose relative name occurs in the entry
    script's [src] and which yields a span (initiator neither
    [xmlhttprequest] nor [fetch]); once set, neither value is overwritten by
    later entries; and the [evaluation] span, appended after the scan when
    both are set, runs from the first to the second. *)
Theorem first_match_captures (o : num) (src_ : option string) (origin : string) :
  (forall (sc : scan) (es : list entry) (t : num),
     tracingInitMarkStartTime sc = Some t ->
     tracingInitMarkStartTime (scan_entries o src_ origin sc es) = Some t)
  /\ (forall (sc : scan) (es : list entry) (t : num),
     entryScriptStartTimestamp sc = Some t ->
     entryScriptStartTimestamp (scan_entries o src_ origin sc es) = Some t)
  /\ (forall (sc : scan) (e : entry),
     tracingInitMarkStartTime sc = None ->
     tracingInitMarkStartTime (process_entry o src_ origin sc e)
     = if is_dispatched o sc e && is_measure_like e
          && String.eqb (name e) "sentry-tracing-init"
       then Some (num_add o (msToSec (Num (startTime e)))) else None)
  /\ (forall (sc : scan) (e : entry),
     entryScriptStartTimestamp sc = None ->
     entryScriptStartTimestamp (process_entry o src_ origin sc e)
     = if is_dispatched o sc e && String.eqb (entryType e) "resource"
          && negb (is_instrumented_request e)
          && includes (default "" src_) (replace_first_empty (name e) origin)
       then Some (num_add (num_add o (msToSec (Num (startTime e))))
                          (msToSec (Num (duration e))))
       else None)
  /\ (forall (e : env) (st : metrics) (tx : transaction),
     gatekeeper e = true ->
     spans (snd (addPerformanceEntries e st tx))
     = (spans (sc_tx (entries_scan e st tx))
        ++ match entryScriptStartTimestamp (entries_scan e st tx),
                 tracingInitMarkStartTime (entries_scan e st tx) with
           | Some es, Some ti => [mkSpan "evaluation" "script" es ti []]
           | _, _ => []
           end)%list).
Proof.
  split; [| split; [| split; [| split]]].
  - intros sc es t. apply (scan_entries_keeps_captured o src_ origin sc es).
  - intros sc es t. apply (scan_entries_keeps_captured o src_ origin sc es).
  - apply process_entry_sets_tracingInit.
  - apply process_entry_sets_entryScript.
  - apply addPerformanceEntries_evaluation.
Qed.

Lemma first_match_captures_witness :
  let tx := mkTransaction "pageload" (Num 1000) [] None None in
  let sc := mkScan tx ∅ (Some (Num 1000.1)) None in
  let a := mkEntry "mark" "sentry-tracing-init" 200 0 [] None None None None in
  tracingInitMarkStartTime (scan_entries (Num 1000) None "https://x" sc [a])
  = Some (Num 1000.1)
  /\ spans (snd (addPerformanceEntries app_js_env (construct app_js_env) tx))
     = (spans (sc_tx (entries_scan app_js_env (construct app_js_env) tx))
        ++ match entryScriptStartTimestamp (entries_scan app_js_env (construct app_js_env) tx),
                 tracingInitMarkStartTime (entries_scan app_js_env (construct app_js_env) tx) with
           | Some es, Some ti => [mkSpan "evaluation" "script" es ti []]
           | _, _ => []
           end)%list.
Proof.
  intros tx sc a.
  destruct (first_match_captures (Num 1000) None "https://x") as [H1 [_ [_ [_ _]]]].
  destruct (first_match_captures (Num 1000) None "https://x") as [_ [_ [_ [_ H5]]]].
  split.
  - apply H1. reflexivity.
  - apply H5. reflexivity.
Defined.

(** C10 fails as stated: the first resource entry matching the entry
    script is a [fetch], which yields no end timestamp, so the second
    matching entry (ending at 1000.03 s) sets it and the [evaluation] span
    starts there. *)
Lemma first_match_fetch_counterexample :
  let tx := mkTransaction "pageload" (Num 1000) [] None None in
  List.find (fun sp => String.eqb (description sp) "evaluation")
    (spans (snd (addPerformanceEntries app_js_env (construct app_js_env) tx)))
  = Some (mkSpan "evaluation" "script" (Num 1000.03) (Num 1000.1) []).
Proof. vm_compute. reflexivity. Qed.

(** * Further properties of the module *)

(** ** Resource names and the entry script *)

Lemma string_length_app (s t : string) :
  String.length (s ++ t) = String.length s + String.length t.
Proof. induction s as [| c s IH]; simpl; [reflexivity | rewrite IH; reflexivity]. Qed.

Lemma prefix_app_self (s t : string) : String.prefix s (s ++ t) = true.
Proof.
  apply String.prefix_correct.
  induction s as [| c s IH]; [destruct t; reflexivity |].
  simpl. rewrite IH. reflexivity.
Qed.

Lemma index0_prefix (s1 s2 : string) :
  String.prefix s1 s2 = true -> String.index 0 s1 s2 = Some 0.
Proof.
  intros H. destruct s2 as [| b s2'].
  - destruct s1; [reflexivity | discriminate].
  - cbn [String.index]. rewrite H. reflexivity.
Qed.

Lemma substring_after_prefix (s t : string) (m : nat) :
  String.substring (String.length s) m (s ++ t) = String.substring 0 m t.
Proof.
  induction s as [| c s IH]; [reflexivity |].
  cbn [String.length String.append]. simpl. exact IH.
Qed.

Lemma substring_whole (t : string) : String.substring 0 (String.length t) t = t.
Proof. induction t as [| c t IH]; [reflexivity |]. simpl. rewrite IH. reflexivity. Qed.

Lemma string_app_empty_r (s : string) : (s ++ "")%string = s.
Proof.
  induction s as [| c s IH]; [reflexivity |].
  change (String c (s ++ "") = String c s). rewrite IH. reflexivity.
Qed.

Lemma substring_empty (s : string) : String.substring 0 0 s = "".
Proof. destruct s; reflexivity. Qed.

Lemma replace_first_empty_app (origin path : string) :
  replace_first_empty (origin ++ path) origin = path.
Proof.
  unfold replace_first_empty. rewrite index0_prefix by apply prefix_app_self.
  rewrite string_length_app.
  replace (String.length origin + String.length path - 0 - String.length origin)
    with (String.length path) by lia.
  rewrite Nat.add_0_l, substring_after_prefix, substring_whole, substring_empty.
  reflexivity.
Qed.

(** [entry.name.replace(origin, '')] turns an absolute URL on the page's
    origin into its path. *)
Theorem replace_origin_prefix (origin path : string) :
  replace_first_empty (origin ++ path) origin = path.
Proof. apply replace_first_empty_app. Qed.

(** A resource named exactly like the page's origin has the empty string as
    its relative name, which [indexOf] finds in any string: dispatched while
    no entry-script end is recorded, and not a fetch/xhr, it records its end
    as the entry-script end, even when no script is flagged as entry. *)
Theorem origin_named_resource_matches_entry_script (o : num) (src_ : option string)
    (origin : string) (sc : scan) (e : entry) :
  entryScriptStartTimestamp sc = None ->
  is_dispatched o sc e = true -> entryType e = "resource" ->
  is_instrumented_request e = false -> name e = origin ->
  entryScriptStartTimestamp (process_entry o src_ origin sc e)
  = Some (num_add (num_add o (msToSec (Num (startTime e)))) (msToSec (Num (duration e)))).
Proof.
  intros Hn Hd Ht Hi Hname.
  rewrite process_entry_sets_entryScript by exact Hn.
  rewrite Hd, Ht, Hi, Hname.
  rewrite <- (string_app_empty_r origin) at 1. rewrite replace_first_empty_app.
  unfold includes. destruct (default "" src_); reflexivity.
Qed.

Lemma origin_named_resource_matches_entry_script_witness :
  let tx := mkTransaction "pageload" (Num 1000) [] None None in
  let sc := mkScan tx ∅ None None in
  let e := mkEntry "resource" "https://x" 5 10 [] (Some "link") None None None in
  entryScriptStartTimestamp (process_entry (Num 1000) None "https://x" sc e)
  = Some (num_add (num_add (Num 1000) (msToSec (Num 5))) (msToSec (Num 10))).
Proof.
  intros tx sc e.
  apply origin_named_resource_matches_entry_script; reflexivity.
Defined.

Lemma match_true_eqb {A : Type} (x y : A) (o : option string) :
  match o with Some "true" => x | _ => y end
  = if match o with Some d => String.eqb d "true" | None => false end then x else y.
Proof.
  destruct o as [d |]; [| reflexivity].
  do 5 (destruct d as [| [[] [] [] [] [] [] [] []] d]; try reflexivity).
Qed.

Lemma find_entry_script_cons (s : script) (rest : list script) :
  find_entry_script (s :: rest)
  = if match dataset_entry s with Some d => String.eqb d "true" | None => false end
    then Some (src s) else find_entry_script rest.
Proof. cbn [find_entry_script]. apply match_true_eqb. Qed.

(** The entry script is the first script whose [data-entry] is ['true']:
    scripts before it are skipped, scripts after it are never looked at. *)
Theorem find_entry_script_first (l1 l2 : list script) (s : script) :
  Forall (fun x => dataset_entry x <> Some "true") l1 ->
  dataset_entry s = Some "true" ->
  find_entry_script (l1 ++ s :: l2)%list = Some (src s).
Proof.
  intros Hl1 Hs. induction Hl1 as [| x l1 Hx Hl1 IH].
  - cbn [app]. rewrite find_entry_script_cons, Hs. reflexivity.
  - cbn [app]. rewrite find_entry_script_cons.
    destruct (dataset_entry x) as [d |]; [| exact IH].
    destruct (String.eqb d "true") eqn:Hd; [| exact IH].
    apply String.eqb_eq in Hd. subst d. contradiction.
Qed.

Lemma find_entry_script_first_witness :
  let a := mkScript None "https://x/vendor.js" in
  let b := mkScript (Some "false") "https://x/polyfill.js" in
  let s := mkScript (Some "true") "https://x/app.js" in
  let c := mkScript (Some "true") "https://x/other.js" in
  find_entry_script ([a; b] ++ s :: [c])%list = Some "https://x/app.js".
Proof.
  intros a b s c. apply (find_entry_script_first [a; b] [c] s).
  - constructor; [discriminate | constructor; [discriminate | constructor]].
  - reflexivity.
Defined.

(** Without a flagged script there is no entry script. *)
Theorem find_entry_script_none (l : list script) :
  Forall (fun x => dataset_entry x <> Some "true") l -> find_entry_script l = None.
Proof.
  intros Hl. induction Hl as [| x l Hx Hl IH]; [reflexivity |].
  rewrite find_entry_script_cons.
  destruct (dataset_entry x) as [d |]; [| exact IH].
  destruct (String.eqb d "true") eqn:Hd; [| exact IH].
  apply String.eqb_eq in Hd. subst d. contradiction.
Qed.

Lemma find_entry_script_none_witness :
  find_entry_script [mkScript (Some "TRUE") "https://x/a.js"; mkScript None "https://x/b.js"]
  = None.
Proof.
  apply find_entry_script_none.
  constructor; [discriminate | constructor; [discriminate | constructor]].
Defined.

(** ** Navigator snapshots *)

Ltac destruct_navigator nav :=
  unfold _trackNavigator;
  destruct (opt_get connection nav) as [c |];
  [destruct (str_truthy (effectiveType c)), (rtt c), (downlink c) |];
  destruct (opt_get nav_deviceMemory nav), (opt_get nav_hardwareConcurrency nav);
  cbn [_measurements _browserContext _performanceCursor
       effectiveConnectionType deviceMemory hardwareConcurrency].

(** [_trackNavigator] writes only what the client exposes: no measurement
    other than [connection.rtt] and [connection.downlink] changes; without a
    network-information object no measurement and no connection type is
    written; device memory and processor count are set when present and
    kept otherwise. *)
Theorem trackNavigator_selective (nav : option navigatorInfo) (st : metrics) :
  (forall k : string, k <> "connection.rtt" -> k <> "connection.downlink" ->
     _measurements (_trackNavigator nav st) !! k = _measurements st !! k)
  /\ (opt_get connection nav = None ->
      _measurements (_trackNavigator nav st) = _measurements st
      /\ effectiveConnectionType (_browserContext (_trackNavigator nav st))
         = effectiveConnectionType (_browserContext st))
  /\ deviceMemory (_browserContext (_trackNavigator nav st))
     = match opt_get nav_deviceMemory nav with
       | Some v => Some v | None => deviceMemory (_browserContext st) end
  /\ hardwareConcurrency (_browserContext (_trackNavigator nav st))
     = match opt_get nav_hardwareConcurrency nav with
       | Some v => Some v | None => hardwareConcurrency (_browserContext st) end.
Proof.
  destruct_navigator nav;
    repeat split; intros; try discriminate;
    rewrite ?lookup_insert_ne by congruence; reflexivity.
Qed.

Lemma trackNavigator_selective_witness :
  let nav := Some (mkNavigator None (Some 8%Q) None) in
  let st := mkMetrics (<["fp" := Num 234]> ∅) (mkBrowserContext None None (Some 4%Q)) 0 in
  _measurements (_trackNavigator nav st) = _measurements st
  /\ effectiveConnectionType (_browserContext (_trackNavigator nav st)) = None.
Proof.
  intros nav st. apply (proj1 (proj2 (trackNavigator_selective nav st))). reflexivity.
Defined.

(** Taking the navigator snapshot again changes nothing: the constructor's
    snapshot and the one of [addPerformanceEntries] agree. *)
Theorem trackNavigator_idempotent (nav : option navigatorInfo) (st : metrics) :
  _trackNavigator nav (_trackNavigator nav st) = _trackNavigator nav st.
Proof.
  destruct_navigator nav; f_equal;
    apply map_eq; intros i; rewrite !lookup_insert; repeat case_decide; congruence.
Qed.

(** ** Dispatch of one entry *)

(** The filter applies to ['navigation'] transactions only: there an entry
    starting before the transaction is skipped entirely; for any other
    operation kind such an entry is dispatched, and a mark or measure
    before the transaction's start pulls the start back to it. *)
Theorem navigation_filter (o : num) (src_ : option string) (origin : string)
    (sc : scan) (e : entry) :
  (tx_op (sc_tx sc) = "navigation" ->
   num_lt (num_add o (msToSec (Num (startTime e)))) (startTimestamp (sc_tx sc)) = true ->
   process_entry o src_ origin sc e = sc)
  /\ (tx_op (sc_tx sc) <> "navigation" -> is_measure_like e = true ->
      num_truthy (num_add o (msToSec (Num (startTime e)))) = true ->
      num_lt (num_add o (msToSec (Num (startTime e)))) (startTimestamp (sc_tx sc)) = true ->
      startTimestamp (sc_tx (process_entry o src_ origin sc e))
      = num_add o (msToSec (Num (startTime e)))).
Proof.
  split.
  - intros Hop Hlt. unfold process_entry. rewrite Hop, Hlt. reflexivity.
  - intros Hop Hm Ht Hlt. unfold process_entry.
    apply String.eqb_neq in Hop. rewrite Hop. cbn [andb].
    unfold is_measure_like in Hm.
    destruct (String.eqb (entryType e) "navigation") eqn:Hn.
    { apply String.eqb_eq in Hn. rewrite Hn in Hm. discriminate. }
    rewrite Hm. unfold addMeasureSpans. cbv beta iota zeta.
    cbn [sc_tx]. unfold _startChild. cbn [ctx_startTimestamp mkCtx].
    rewrite Ht, Hlt. reflexivity.
Qed.

Lemma navigation_filter_witness :
  let e := mkEntry "mark" "early" 10 0 [] None None None None in
  let nav := mkScan (mkTransaction "navigation" (Num 1001) [] None None) ∅ None None in
  let pl := mkScan (mkTransaction "pageload" (Num 1001) [] None None) ∅ None None in
  process_entry (Num 1000) None "https://x" nav e = nav
  /\ startTimestamp (sc_tx (process_entry (Num 1000) None "https://x" pl e))
     = num_add (Num 1000) (msToSec (Num 10)).
Proof.
  intros e nav pl. split.
  - apply (proj1 (navigation_filter (Num 1000) None "https://x" nav e)); reflexivity.
  - apply (proj2 (navigation_filter (Num 1000) None "https://x" pl e));
      [discriminate | reflexivity | reflexivity | reflexivity].
Defined.

(** Entries of any other type than navigation, mark, paint, measure and
    resource are ignored. *)
Theorem other_entry_types_ignored (o : num) (src_ : option string) (origin : string)
    (sc : scan) (e : entry) :
  entryType e <> "navigation" -> is_measure_like e = false ->
  entryType e <> "resource" ->
  process_entry o src_ origin sc e = sc.
Proof.
  intros Hn Hm Hr. unfold process_entry. unfold is_measure_like in Hm.
  apply String.eqb_neq in Hn, Hr. rewrite Hn, Hm, Hr.
  destruct (_ && _); reflexivity.
Qed.

Lemma other_entry_types_ignored_witness :
  let e := mkEntry "longtask" "self" 10 60 [] None None None None in
  let sc := mkScan (mkTransaction "pageload" (Num 1000) [] None None) ∅ None None in
  process_entry (Num 1000) None "https://x" sc e = sc.
Proof. intros e sc. apply other_entry_types_ignored; [discriminate | reflexivity | discriminate]. Defined.

(** A dispatched mark, paint or measure entry adds one span named after the
    entry, with the entry type as operation, from its absolute start to
    that start plus its duration. *)
Theorem measure_entry_span (o : num) (src_ : option string) (origin : string)
    (sc : scan) (e : entry) :
  is_dispatched o sc e = true -> is_measure_like e = true ->
  spans (sc_tx (process_entry o src_ origin sc e))
  = (spans (sc_tx sc)
     ++ [mkSpan (name e) (entryType e) (num_add o (msToSec (Num (startTime e))))
           (num_add (num_add o (msToSec (Num (startTime e)))) (msToSec (Num (duration e))))
           []])%list.
Proof.
  intros Hd Hm. unfold process_entry. unfold is_dispatched in Hd.
  apply negb_true_iff in Hd. rewrite Hd. unfold is_measure_like in Hm.
  destruct (String.eqb (entryType e) "navigation") eqn:Hn.
  { apply String.eqb_eq in Hn. rewrite Hn in Hm. discriminate. }
  rewrite Hm. unfold addMeasureSpans. cbv beta iota zeta. cbn [sc_tx].
  apply startChild_spans.
Qed.

Lemma measure_entry_span_witness :
  let e := mkEntry "measure" "hydrate" 40 20 [] None None None None in
  let sc := mkScan (mkTransaction "pageload" (Num 1000) [] None None) ∅ None None in
  spans (sc_tx (process_entry (Num 1000) None "https://x" sc e))
  = [mkSpan "hydrate" "measure" (num_add (Num 1000) (msToSec (Num 40)))
       (num_add (num_add (Num 1000) (msToSec (Num 40))) (msToSec (Num 20))) []].
Proof. intros e sc. apply measure_entry_span; reflexivity. Defined.

(** A dispatched resource entry not made by fetch or xhr adds one span: its
    name with the page origin removed, operation [resource.<initiator>]
    (plain [resource] without an initiator), from its absolute start to
    start plus duration, with the size fields present on the entry. *)
Theorem resource_entry_span (o : num) (src_ : option string) (origin : string)
    (sc : scan) (e : entry) :
  is_dispatched o sc e = true -> entryType e = "resource" ->
  is_instrumented_request e = false ->
  spans (sc_tx (process_entry o src_ origin sc e))
  = (spans (sc_tx sc)
     ++ [mkSpan (replace_first_empty (name e) origin)
           (if str_truthy (initiatorType e)
            then "resource." ++ default "" (initiatorType e) else "resource")
           (num_add o (msToSec (Num (startTime e))))
           (num_add (num_add o (msToSec (Num (startTime e)))) (msToSec (Num (duration e))))
           (resource_data e)])%list.
Proof.
  intros Hd Ht Hi. unfold process_entry. unfold is_dispatched in Hd.
  apply negb_true_iff in Hd. rewrite Hd, Ht. cbn [String.eqb Ascii.eqb Bool.eqb orb].
  unfold addResourceSpans. unfold is_instrumented_request in Hi. rewrite Hi.
  cbv beta iota zeta. cbn [sc_tx]. apply startChild_spans.
Qed.

Lemma resource_entry_span_witness :
  let e := mkEntry "resource" "https://x/app.css" 5 10 [] (Some "link")
             (Some 300%Q) None None in
  let sc := mkScan (mkTransaction "pageload" (Num 1000) [] None None) ∅ None None in
  spans (sc_tx (process_entry (Num 1000) None "https://x" sc e))
  = [mkSpan "/app.css" "resource.link" (num_add (Num 1000) (msToSec (Num 5)))
       (num_add (num_add (Num 1000) (msToSec (Num 5))) (msToSec (Num 10)))
       [("Transfer Size", 300%Q)]].
Proof. intros e sc. apply resource_entry_span; reflexivity. Defined.

(** ** Measurements written by the scan *)

(** A dispatched mark/paint/measure entry named [first-paint] records [fp]
    as its raw start in ms and [mark.fp] as its absolute start in s, the
    start of the span it adds; [first-contentful-paint] likewise records
    [fcp] and [mark.fcp]; any entry with another name writes no
    measurement. *)
Theorem paint_measurements (o : num) (src_ : option string) (origin : string)
    (sc : scan) (e : entry) :
  (is_dispatched o sc e = true -> is_measure_like e = true ->
   name e = "first-paint" ->
   sc_meas (process_entry o src_ origin sc e)
   = <["mark.fp" := num_add o (msToSec (Num (startTime e)))]>
       (<["fp" := Num (startTime e)]> (sc_meas sc)))
  /\ (is_dispatched o sc e = true -> is_measure_like e = true ->
      name e = "first-contentful-paint" ->
      sc_meas (process_entry o src_ origin sc e)
      = <["mark.fcp" := num_add o (msToSec (Num (startTime e)))]>
          (<["fcp" := Num (startTime e)]> (sc_meas sc)))
  /\ (name e <> "first-paint" -> name e <> "first-contentful-paint" ->
      sc_meas (process_entry o src_ origin sc e) = sc_meas sc).
Proof.
  unfold process_entry, is_dispatched, is_measure_like.
  split; [| split].
  - intros Hd Hm Hnm. apply negb_true_iff in Hd. rewrite Hd.
    destruct (String.eqb (entryType e) "navigation") eqn:Hn.
    { apply String.eqb_eq in Hn. rewrite Hn in Hm. discriminate. }
    rewrite Hm. unfold addMeasureSpans. cbv beta iota zeta. cbn [sc_meas].
    rewrite Hnm. reflexivity.
  - intros Hd Hm Hnm. apply negb_true_iff in Hd. rewrite Hd.
    destruct (String.eqb (entryType e) "navigation") eqn:Hn.
    { apply String.eqb_eq in Hn. rewrite Hn in Hm. discriminate. }
    rewrite Hm. unfold addMeasureSpans. cbv beta iota zeta. cbn [sc_meas].
    rewrite Hnm. reflexivity.
  - intros H1 H2. apply String.eqb_neq in H1, H2.
    destruct (_ && _); [reflexivity |].
    destruct (String.eqb (entryType e) "navigation"); [reflexivity |].
    destruct (_ || _ || _).
    + unfold addMeasureSpans. cbv beta iota zeta. cbn [sc_meas].
      rewrite H1, H2. reflexivity.
    + destruct (String.eqb (entryType e) "resource"); [| reflexivity].
      destruct (addResourceSpans _ _ _ _ _ _). reflexivity.
Qed.

Lemma paint_measurements_witness :
  let e := mkEntry "paint" "first-paint" 234 0 [] None None None None in
  let sc := mkScan (mkTransaction "pageload" (Num 1000) [] None None) ∅ None None in
  sc_meas (process_entry (Num 1000) None "https://x" sc e)
  = <["mark.fp" := num_add (Num 1000) (msToSec (Num 234))]> (<["fp" := Num 234]> ∅).
Proof.
  intros e sc. apply (proj1 (paint_measurements (Num 1000) None "https://x" sc e));
    reflexivity.
Defined.

(** ** A cleared timeline *)

(** When the timeline is no longer than the cursor (the platform's buffer
    was cleared), a call adds no span, and the cursor is reset to
    [max(length - 1, 0)], below its previous value when the cursor was past
    the new end. *)
Theorem cursor_past_end (e : env) (st : metrics) (tx : transaction) :
  gatekeeper e = true -> length (timeline e) <= _performanceCursor st ->
  spans (snd (addPerformanceEntries e st tx)) = spans tx
  /\ _performanceCursor (fst (addPerformanceEntries e st tx))
     = Nat.max (length (timeline e) - 1) 0.
Proof.
  intros Hg Hl. split.
  - rewrite addPerformanceEntries_evaluation by exact Hg.
    unfold entries_scan. rewrite drop_ge by exact Hl.
    cbn [scan_entries fold_left sc_tx entryScriptStartTimestamp tracingInitMarkStartTime].
    apply app_nil_r.
  - rewrite addPerformanceEntries_cursor, Hg. reflexivity.
Qed.

Lemma cursor_past_end_witness :
  let e := mkEnv true true true (Some 1000000%Q) None "https://x" None
             [mkEntry "mark" "a" 10 0 [] None None None None] in
  let st := mkMetrics ∅ emptyBrowserContext 7 in
  let tx := mkTransaction "pageload" (Num 1000) [] None None in
  spans (snd (addPerformanceEntries e st tx)) = spans tx
  /\ _performanceCursor (fst (addPerformanceEntries e st tx)) = 0.
Proof.
  intros e st tx. apply cursor_past_end; [reflexivity | cbn; lia].
Defined.

(** ** Repeated vital firings *)

(** [metric.entries.pop()] removes the entry it reads from the metric
    object: a second firing with the same object, without a new entry,
    records the mark of the entry before the last one. *)
Theorem vital_refiring_uses_previous_entry (key : string) (o : Q) (st : metrics)
    (m : metric) (l : list entry) (e1 e2 : entry) :
  entries m = (l ++ [e1; e2])%list ->
  let '(st1, m1) := vital_callback key o st m in
  entries m1 = (l ++ [e1])%list
  /\ fst (vital_callback key o st1 m1)
     = set_meas st1 (<["mark." ++ key := msToSec (Num (o + startTime e1))]>
                      (<[key := Num (value m)]> (_measurements st1))).
Proof.
  intros Hm. unfold vital_callback at 1.
  replace (entries m) with ((l ++ [e1]) ++ [e2])%list
    by (rewrite Hm, <- app_assoc; reflexivity).
  rewrite pop_app_last. cbv beta iota zeta. cbn [entries value].
  split; [reflexivity |].
  unfold vital_callback. cbn [entries value]. rewrite pop_app_last.
  cbv beta iota zeta. rewrite !msToSec_add. reflexivity.
Qed.

Lemma vital_refiring_uses_previous_entry_witness :
  let e1 := mkEntry "first-input" "mousedown" 100 5 [] None None None None in
  let e2 := mkEntry "first-input" "keydown" 300 5 [] None None None None in
  let m := mkMetric 5 [e1; e2] in
  let st := mkMetrics ∅ emptyBrowserContext 0 in
  let '(st1, m1) := _trackFID_callback 1000 st m in
  entries m1 = [e1]
  /\ fst (_trackFID_callback 1000 st1 m1)
     = set_meas st1 (<["mark.fid" := msToSec (Num (1000 + startTime e1))]>
                      (<["fid" := Num 5]> (_measurements st1))).
Proof.
  intros e1 e2 m st.
  exact (vital_refiring_uses_previous_entry "fid" 1000 st m [] e1 e2 eq_refl).
Defined.

(** ** What a call keeps *)

Lemma num_lt_trans (a b c : num) :
  num_lt a b = true -> num_lt b c = true -> num_lt a c = true.
Proof.
  destruct a as [x |], b as [y |], c as [z |]; cbn; try discriminate.
  rewrite !negb_true_iff. intros H1 H2.
  destruct (Qle_bool z x) eqn:E; [| reflexivity].
  apply Qle_bool_iff in E.
  destruct (Qle_bool y x) eqn:E1; [discriminate |].
  destruct (Qle_bool z y) eqn:E2; [discriminate |].
  exfalso.
  assert (Hxy : (x < y)%Q) by (apply Qnot_le_lt; intro H; apply Qle_bool_iff in H; congruence).
  assert (Hyz : (y < z)%Q) by (apply Qnot_le_lt; intro H; apply Qle_bool_iff in H; congruence).
  apply (Qlt_not_le x z); [apply (Qlt_trans _ y); assumption | assumption].
Qed.

Lemma extends_refl (tx : transaction) : extends tx tx.
Proof. split; [exists []; symmetry; apply app_nil_r | left; reflexivity]. Qed.

Lemma extends_trans (a b c : transaction) : extends a b -> extends b c -> extends a c.
Proof.
  intros [[l1 H1] H2] [[l2 H3] H4]. split.
  - exists (l1 ++ l2)%list. rewrite H3, H1, app_assoc. reflexivity.
  - destruct H2 as [H2 | H2], H4 as [H4 | H4].
    + left; congruence.
    + right; rewrite <- H2; exact H4.
    + right; rewrite H4; exact H2.
    + right; exact (num_lt_trans _ _ _ H4 H2).
Qed.

Lemma extends_startChild (tx : transaction) (c : spanContext) :
  extends tx (_startChild tx c).
Proof.
  unfold _startChild. destruct (num_truthy _ && num_lt _ _) eqn:E.
  - apply andb_true_iff in E as [_ E]. split; [eexists; reflexivity |].
    right. exact E.
  - split; [eexists; reflexivity | left; reflexivity].
Qed.

Lemma extends_timing (tx : transaction) (e : entry) (ev : string) (o : num) :
  extends tx (addPerformanceNavigationTiming tx e ev o).
Proof.
  unfold addPerformanceNavigationTiming.
  destruct (_ || _); [apply extends_refl | apply extends_startChild].
Qed.

Lemma extends_addNavigationSpans (tx : transaction) (e : entry) (o : num) :
  extends tx (addNavigationSpans tx e o).
Proof.
  unfold addNavigationSpans, addRequest.
  repeat (eapply extends_trans; [| apply extends_startChild]).
  repeat (eapply extends_trans; [| apply extends_timing]). apply extends_refl.
Qed.

Lemma extends_process_entry (o : num) (src_ : option string) (origin : string)
    (sc : scan) (e : entry) :
  extends (sc_tx sc) (sc_tx (process_entry o src_ origin sc e)).
Proof.
  unfold process_entry.
  destruct (_ && _); [apply extends_refl |].
  destruct (String.eqb (entryType e) "navigation"); [apply extends_addNavigationSpans |].
  destruct (_ || _ || _).
  { unfold addMeasureSpans. cbv beta iota zeta. apply extends_startChild. }
  destruct (String.eqb (entryType e) "resource"); [| apply extends_refl].
  unfold addResourceSpans. destruct (_ || _); cbv beta iota zeta;
    [apply extends_refl | apply extends_startChild].
Qed.

Lemma extends_scan_entries (o : num) (src_ : option string) (origin : string)
    (sc : scan) (es : list entry) :
  extends (sc_tx sc) (sc_tx (scan_entries o src_ origin sc es)).
Proof.
  unfold scan_entries. revert sc.
  induction es as [| e es IH]; intros sc; cbn [fold_left]; [apply extends_refl |].
  eapply extends_trans; [apply extends_process_entry | apply IH].
Qed.

(** [addPerformanceEntries] never drops or reorders a span of the
    transaction it is given, and never moves the transaction's start later:
    the old spans are a prefix of the new ones, and the new start is the
    old one or an earlier time. *)
Theorem addPerformanceEntries_extends (e : env) (st : metrics) (tx : transaction) :
  extends tx (snd (addPerformanceEntries e st tx)).
Proof.
  unfold addPerformanceEntries.
  destruct (negb (gatekeeper e)); [apply extends_refl |].
  cbv zeta.
  match goal with |- context [scan_entries ?o ?s ?g ?sc0 ?l] =>
    pose proof (extends_scan_entries o s g sc0 l) as H;
    remember (scan_entries o s g sc0 l) as sc end.
  cbn [sc_tx] in H.
  assert (H1 : extends tx (match entryScriptStartTimestamp sc, tracingInitMarkStartTime sc with
      | Some es, Some ti => _startChild (sc_tx sc) (mkCtx "evaluation" ti "script" es)
      | _, _ => sc_tx sc end)).
  { destruct (entryScriptStartTimestamp sc), (tracingInitMarkStartTime sc); try exact H.
    eapply extends_trans; [exact H | apply extends_startChild]. }
  destruct (String.eqb _ "pageload"); cbn [snd]; [| exact H1].
  eapply extends_trans; [exact H1 |].
  split; [exists []; symmetry; apply app_nil_r | left; reflexivity].
Qed.

Lemma process_entry_meas_other (o : num) (src_ : option string) (origin : string)
    (sc : scan) (e : entry) (k : string) :
  k <> "fp" -> k <> "mark.fp" -> k <> "fcp" -> k <> "mark.fcp" ->
  sc_meas (process_entry o src_ origin sc e) !! k = sc_meas sc !! k.
Proof.
  intros H1 H2 H3 H4. unfold process_entry.
  destruct (_ && _); [reflexivity |].
  destruct (String.eqb (entryType e) "navigation"); [reflexivity |].
  destruct (_ || _ || _).
  - unfold addMeasureSpans. cbv beta iota zeta. cbn [sc_meas].
    destruct (String.eqb (name e) "first-paint"), (String.eqb (name e) "first-contentful-paint");
      rewrite ?lookup_insert_ne by congruence; reflexivity.
  - destruct (String.eqb (entryType e) "resource"); [| reflexivity].
    destruct (addResourceSpans _ _ _ _ _ _). reflexivity.
Qed.

Lemma scan_entries_meas_other (o : num) (src_ : option string) (origin : string)
    (sc : scan) (es : list entry) (k : string) :
  k <> "fp" -> k <> "mark.fp" -> k <> "fcp" -> k <> "mark.fcp" ->
  sc_meas (scan_entries o src_ origin sc es) !! k = sc_meas sc !! k.
Proof.
  intros H1 H2 H3 H4. unfold scan_entries. revert sc.
  induction es as [| e es IH]; intros sc; cbn [fold_left]; [reflexivity |].
  rewrite IH. apply process_entry_meas_other; assumption.
Qed.

Lemma trackNavigator_meas_other (nav : option navigatorInfo) (st : metrics) (k : string) :
  k <> "connection.rtt" -> k <> "connection.downlink" ->
  _measurements (_trackNavigator nav st) !! k = _measurements st !! k.
Proof.
  intros. destruct_navigator nav;
    rewrite ?lookup_insert_ne by congruence; reflexivity.
Qed.

(** The instance's measurements under any key other than [fp], [mark.fp],
    [fcp], [mark.fcp], [connection.rtt] and [connection.downlink] (web-vital
    values among them) come out of [addPerformanceEntries] as they went in. *)
Theorem addPerformanceEntries_other_measurements (e : env) (st : metrics)
    (tx : transaction) (k : string) :
  k <> "fp" -> k <> "mark.fp" -> k <> "fcp" -> k <> "mark.fcp" ->
  k <> "connection.rtt" -> k <> "connection.downlink" ->
  _measurements (fst (addPerformanceEntries e st tx)) !! k = _measurements st !! k.
Proof.
  intros H1 H2 H3 H4 H5 H6. unfold addPerformanceEntries.
  destruct (negb (gatekeeper e)); [reflexivity |].
  cbv zeta.
  destruct (String.eqb _ "pageload"); cbn [fst];
    [rewrite trackNavigator_meas_other by assumption |];
    cbn [_measurements]; apply scan_entries_meas_other; assumption.
Qed.

Lemma addPerformanceEntries_other_measurements_witness :
  let st := mkMetrics (<["lcp" := Num 250]> ∅) emptyBrowserContext 0 in
  let tx := mkTransaction "pageload" (Num 1000) [] None None in
  _measurements (fst (addPerformanceEntries app_js_env st tx)) !! "lcp" = Some (Num 250).
Proof.
  intros st tx.
  rewrite (addPerformanceEntries_other_measurements app_js_env st tx "lcp")
    by discriminate.
  reflexivity.
Defined.

(** ** A new instance *)

(** A newly constructed instance starts with the cursor at [0], so its
    first call scans the whole timeline, and its measurement set holds no
    key other than [connection.rtt] and [connection.downlink]; without a
    global [performance] object it holds none. *)
Theorem construct_initial (e : env) :
  _performanceCursor (construct e) = 0
  /\ (forall k : string, k <> "connection.rtt" -> k <> "connection.downlink" ->
        _measurements (construct e) !! k = None)
  /\ (has_global e && has_performance e = false -> _measurements (construct e) = ∅).
Proof.
  unfold construct. split; [| split].
  - destruct (_ && _); [apply trackNavigator_cursor | reflexivity].
  - intros k H1 H2. destruct (_ && _); [| reflexivity].
    rewrite trackNavigator_meas_other by assumption. reflexivity.
  - intros H. rewrite H. reflexivity.
Qed.

Lemma construct_initial_witness :
  let e := mkEnv true true true (Some 1000000%Q) None "https://x"
             (Some (mkNavigator (Some (mkConnection (Some "4g") (Some 50%Q) (Some 10%Q)))
                                None None)) [] in
  _measurements (construct e) !! "fp" = None.
Proof.
  intros e. apply (proj1 (proj2 (construct_initial e))); discriminate.
Defined.
